(** * Analytics report views: sales, inventory and financial aggregation.

    A shallow embedding of [analytics/reports/views.py].  The three request
    handlers are embedded as functions of the values they read (request
    parameters already parsed, rows already fetched from the database) and
    return the body handed to [Response].

    Numbers: Python [float]s and SQL numerics are embedded as exact rationals
    ([Q]); counts, quantities and stock levels as integers ([Z]).  A pandas
    [NaN] is an absent value ([option]).  Dates are [datetime.date] values
    (year, month, day) with the proleptic Gregorian ordinal of the Python
    standard library. *)

From Stdlib Require Import ZArith QArith List String Ascii Bool Lia.
From Stdlib Require Import Sorting.Sorted Sorting.Permutation.
Import ListNotations.

Local Open Scope Z_scope.

(* ================================================================== *)
(** ** Calendar: [datetime.date], ordinals and [strftime] directives *)
(* ================================================================== *)

Module Calendar.

(** [datetime.date]: three integer fields. *)
Record date : Type := mkdate { year : Z; month : Z; day : Z }.

Definition MAXORDINAL : Z := 3652059.

Definition is_leap (y : Z) : bool :=
  (y mod 4 =? 0) && (negb (y mod 100 =? 0) || (y mod 400 =? 0)).

(** [_DAYS_IN_MONTH] and [_DAYS_BEFORE_MONTH], indexed from 1. *)
Definition DAYS_IN_MONTH (m : Z) : Z :=
  match m with
  | 1 => 31 | 2 => 28 | 3 => 31 | 4 => 30 | 5 => 31 | 6 => 30
  | 7 => 31 | 8 => 31 | 9 => 30 | 10 => 31 | 11 => 30 | 12 => 31
  | _ => 0
  end.

Definition DAYS_BEFORE_MONTH (m : Z) : Z :=
  match m with
  | 1 => 0 | 2 => 31 | 3 => 59 | 4 => 90 | 5 => 120 | 6 => 151
  | 7 => 181 | 8 => 212 | 9 => 243 | 10 => 273 | 11 => 304 | 12 => 334
  | _ => 0
  end.

Definition b2z (b : bool) : Z := if b then 1 else 0.

Definition days_in_month (y m : Z) : Z :=
  if (m =? 2) && is_leap y then 29 else DAYS_IN_MONTH m.

Definition days_before_month (y m : Z) : Z :=
  DAYS_BEFORE_MONTH m + b2z ((2 <? m) && is_leap y).

Definition days_before_year (y : Z) : Z :=
  let y' := y - 1 in y' * 365 + y' / 4 - y' / 100 + y' / 400.

(** The invariant every [datetime.date] object satisfies. *)
Definition valid_date (d : date) : Prop :=
  1 <= year d <= 9999 /\ 1 <= month d <= 12 /\
  1 <= day d <= days_in_month (year d) (month d).

(** [date.toordinal()]: 0001-01-01 is day 1. *)
Definition toordinal (d : date) : Z :=
  days_before_year (year d) + days_before_month (year d) (month d) + day d.

(** Month and day from the 0-based day of the year ([_ord2ymd], second half). *)
Definition month_day (leapyear : bool) (n : Z) : Z * Z :=
  let m := Z.shiftr (n + 50) 5 in
  let preceding := DAYS_BEFORE_MONTH m + b2z ((2 <? m) && leapyear) in
  if n <? preceding
  then let m' := m - 1 in
       let preceding' :=
         preceding - (DAYS_IN_MONTH m' + b2z ((m' =? 2) && leapyear)) in
       (m', n - preceding' + 1)
  else (m, n - preceding + 1).

(** [_ord2ymd]. *)
Definition ord2ymd (n : Z) : date :=
  let n := n - 1 in
  let n400 := n / 146097 in
  let n := n mod 146097 in
  let y := n400 * 400 + 1 in
  let n100 := n / 36524 in
  let n := n mod 36524 in
  let n4 := n / 1461 in
  let n := n mod 1461 in
  let n1 := n / 365 in
  let n := n mod 365 in
  let y := y + n100 * 100 + n4 * 4 + n1 in
  if (n1 =? 4) || (n100 =? 4) then mkdate (y - 1) 12 31
  else
    let leapyear := (n1 =? 3) && (negb (n4 =? 24) || (n100 =? 3)) in
    let '(m, d) := month_day leapyear n in
    mkdate y m d.

(** [date.fromordinal] and [date + timedelta(days)]: an ordinal outside
    [1 .. MAXORDINAL] raises, which is [None] here. *)
Definition fromordinal (n : Z) : option date :=
  if (0 <? n) && (n <=? MAXORDINAL) then Some (ord2ymd n) else None.

Definition add_days (d : date) (k : Z) : option date :=
  fromordinal (toordinal d + k).

(** [date - timedelta(days=k)] is [date + timedelta(-k)]. *)
Definition sub_days (d : date) (k : Z) : option date := add_days d (- k).

(** [(d1 - d2).days]. *)
Definition diff_days (d1 d2 : date) : Z := toordinal d1 - toordinal d2.

(** Comparison of dates is comparison of (year, month, day). *)
Definition date_ltb (a b : date) : bool :=
  (year a <? year b)
  || ((year a =? year b)
      && ((month a <? month b) || ((month a =? month b) && (day a <? day b)))).

Definition date_eqb (a b : date) : bool :=
  (year a =? year b) && (month a =? month b) && (day a =? day b).

Definition date_lt (a b : date) : Prop := date_ltb a b = true.

(** 0-based day of the year ([tm_yday]) and day of the week with Sunday = 0
    ([tm_wday]); ordinal 1 is a Monday. *)
Definition yday0 (d : date) : Z :=
  days_before_month (year d) (month d) + day d - 1.

Definition wday_sun0 (d : date) : Z := toordinal d mod 7.

(** [%U]: week of the year, weeks starting on Sunday, days before the first
    Sunday in week 0. *)
Definition week_U (d : date) : Z := (yday0 d + 7 - wday_sun0 d) / 7.

(** Decimal digits, zero padded. *)
Definition digit (n : Z) : ascii := ascii_of_N (Z.to_N (48 + n mod 10)).

Definition pad2 (n : Z) : string :=
  String (digit (n / 10)) (String (digit n) EmptyString).

Definition pad4 (n : Z) : string :=
  String (digit (n / 1000)) (String (digit (n / 100))
    (String (digit (n / 10)) (String (digit n) EmptyString))).

(** ['%Y-%m-%d'], ['%Y-%m'] and ['%Y-W%U']. *)
Definition strftime_Ymd (d : date) : string :=
  (pad4 (year d) ++ "-" ++ pad2 (month d) ++ "-" ++ pad2 (day d))%string.

Definition strftime_Ym (d : date) : string :=
  (pad4 (year d) ++ "-" ++ pad2 (month d))%string.

Definition strftime_YWU (d : date) : string :=
  (pad4 (year d) ++ "-W" ++ pad2 (week_U d))%string.

End Calendar.

Import Calendar.

(* ================================================================== *)
(** ** Shared pieces: responses, checked division, frames, charts *)
(* ================================================================== *)

Module Common.

(** What a handler hands back: [Response(body)] or, from the
    [except Exception] clause, the 500 response with its message. *)
Inductive response (A : Type) : Type :=
| Response200 (body : A)
| Response500 (error : string).
Arguments Response200 {A} body.
Arguments Response500 {A} error.

(** A computation that may raise. *)
Inductive result (A : Type) : Type :=
| Ok (a : A)
| Raise (exn : string).
Arguments Ok {A} a.
Arguments Raise {A} exn.

Definition bind {A B} (m : result A) (k : A -> result B) : result B :=
  match m with
  | Ok a => k a
  | Raise e => Raise e
  end.

Notation "x <- m ;; k" := (bind m (fun x => k))
  (at level 61, m at next level, right associativity).

(** The [try: ... except Exception as e:] wrapper of every handler. *)
Definition catch {A} (prefix : string) (m : result A) : response A :=
  match m with
  | Ok body => Response200 body
  | Raise e => Response500 (prefix ++ e)%string
  end.

(** [a / b]: a zero divisor raises. *)
Definition checked_div (a b : Q) : result Q :=
  if Qeq_bool b 0 then Raise "division by zero" else Ok (a / b)%Q.

(** [date +/- timedelta]: a result outside the supported range raises. *)
Definition date_or_raise (o : option date) : result date :=
  match o with
  | Some d => Ok d
  | None => Raise "date value out of range"
  end.

Definition Qsum (l : list Q) : Q := fold_right Qplus 0%Q l.
Definition Zsum (l : list Z) : Z := fold_right Z.add 0 l.
Definition Zlen {A} (l : list A) : Z := Z.of_nat (List.length l).

(** [Series.mean()] of a non-empty column. *)
Definition Qmean (l : list Q) : Q := (Qsum l / inject_Z (Zlen l))%Q.

Definition Qltb (a b : Q) : bool := negb (Qle_bool b a).

(** A plotly figure, reduced to what the handlers put in: the kind of trace,
    the title and, per trace, its name and its (x, y) points. *)
Inductive trace_kind : Type := Scatter | Bar | Pie.

Record figure : Type := mkfigure {
  fig_kind : trace_kind;
  fig_title : string;
  fig_traces : list (string * list (string * Q))
}.

(** [df.groupby(key)]: groups in ascending key order ([sort=True]), the rows
    of a group in frame order; rows whose key is missing are dropped. *)
Section GroupBy.
Context {A : Type}.

Fixpoint group_insert (k : string) (a : A) (gs : list (string * list A))
  : list (string * list A) :=
  match gs with
  | [] => [(k, [a])]
  | (k', g) :: rest =>
      match String.compare k k' with
      | Eq => (k', g ++ [a]) :: rest
      | Lt => (k, [a]) :: gs
      | Gt => (k', g) :: group_insert k a rest
      end
  end.

Definition groupby (key : A -> option string) (rows : list A)
  : list (string * list A) :=
  fold_left (fun gs a => match key a with
                         | Some k => group_insert k a gs
                         | None => gs
                         end) rows [].
End GroupBy.

(** Descending stable sort on a column, and [head(n)] of it:
    [sort_values(col, ascending=False)] and [nlargest(n, col)] with the
    default [keep='first'] (rows that tie stay in frame order). *)
Section SortDesc.
Context {A : Type} (ltb : A -> A -> bool).

Fixpoint insert_desc (x : A) (s : list A) : list A :=
  match s with
  | [] => [x]
  | y :: s' => if ltb x y then y :: insert_desc x s' else x :: s
  end.

Definition sort_desc (l : list A) : list A := fold_right insert_desc [] l.

Definition nlargest (n : nat) (l : list A) : list A := firstn n (sort_desc l).
End SortDesc.

End Common.

Import Common.

(* ================================================================== *)
(** ** [sales_analytics] *)
(* ================================================================== *)

Module Sales.

(** A [timestamp] value of column [created_at]: a date and the seconds
    elapsed since its midnight. *)
Record timestamp : Type := mkts { ts_date : date; ts_second : Z }.

Definition valid_timestamp (t : timestamp) : Prop :=
  valid_date (ts_date t) /\ 0 <= ts_second t < 86400.

(** Position on the time line, in seconds; a date used where a timestamp
    is expected is its midnight. *)
Definition ts_pos (t : timestamp) : Z := toordinal (ts_date t) * 86400 + ts_second t.
Definition midnight (d : date) : Z := toordinal d * 86400.

(** SQL [DATE(created_at)]. *)
Definition DATE (t : timestamp) : date := ts_date t.

(** A row of table [sales], with the columns the queries read. *)
Record sale : Type := mksale {
  created_at : timestamp;
  total : Q;
  payment_status : string
}.

Definition completed (s : sale) : bool := String.eqb (payment_status s) "COMPLETED".

(** [WHERE s.created_at >= %s AND s.created_at <= %s
          AND s.payment_status = 'COMPLETED'] with [[start_date, end_date]]. *)
Definition current_where (start_date end_date : date) (s : sale) : bool :=
  (midnight start_date <=? ts_pos (created_at s))
  && (ts_pos (created_at s) <=? midnight end_date)
  && completed s.

(** [WHERE created_at >= %s AND created_at < %s
          AND payment_status = 'COMPLETED'] with [[prev_start, prev_end]]. *)
Definition previous_where (prev_start prev_end : date) (s : sale) : bool :=
  (midnight prev_start <=? ts_pos (created_at s))
  && (ts_pos (created_at s) <? midnight prev_end)
  && completed s.

(** [SELECT SUM(total) ...] of the previous period: NULL when no row is
    selected. *)
Definition prev_revenue_sql (table : list sale) (prev_start prev_end : date)
  : option Q :=
  match filter (previous_where prev_start prev_end) table with
  | [] => None
  | rows => Some (Qsum (map total rows))
  end.

(** A fetched row of the grouped sales query (the columns of [df]). *)
Record sales_row : Type := mkrow {
  sale_date : date;
  transaction_count : Z;
  total_revenue : Q;
  subtotal : Q;
  tax_amount : Q;
  avg_transaction_value : Q;
  unique_customers : Z;
  salesperson : option string;
  payment_method : option string
}.

(** What the cursor returns: the grouped rows of the window, and the
    previous period's [SUM(total)] taken over table [sales]. *)
Record row_source : Type := mksource {
  sales_table : list sale;
  fetch_sales : date -> date -> list sales_row
}.

Record request : Type := mkrequest {
  req_start_date : option date;
  req_end_date : option date;
  req_group_by : string
}.

(** [growth_rate]: line 104. *)
Definition growth_rate (total_revenue prev_revenue : Q) : result Q :=
  if Qltb 0 prev_revenue
  then q <- checked_div (total_revenue - prev_revenue) prev_revenue ;;
       Ok (q * 100)%Q
  else Ok 0%Q.

(** [float(prev_result[0]) if prev_result[0] else 0]. *)
Definition prev_revenue_of (prev_result : option Q) : Q :=
  match prev_result with
  | Some x => if Qeq_bool x 0 then 0%Q else x
  | None => 0%Q
  end.

(** The comparison window: lines 89-91. *)
Definition previous_period (start_date end_date : date) : result (date * date) :=
  let period_days := diff_days end_date start_date in
  prev_start <- date_or_raise (sub_days start_date period_days) ;;
  let prev_end := start_date in
  Ok (prev_start, prev_end).

(** The period key of a sale date: lines 109-117. *)
Definition period (group_by : string) (sale_date : date) : string :=
  if String.eqb group_by "week" then strftime_YWU sale_date
  else if String.eqb group_by "month" then strftime_Ym sale_date
  else strftime_Ymd sale_date.

(** The period key of a sale made at [t]. *)
Definition period_of (group_by : string) (t : timestamp) : string :=
  period group_by (DATE t).

(** One row of [period_stats]. *)
Record period_stat : Type := mkstat {
  ps_period : string;
  ps_total_revenue : Q;
  ps_transaction_count : Z;
  ps_unique_customers : Z
}.

Definition period_stats (group_by : string) (df : list sales_row)
  : list period_stat :=
  map (fun '(k, g) =>
         mkstat k (Qsum (map total_revenue g))
                  (Zsum (map transaction_count g))
                  (Zsum (map unique_customers g)))
      (groupby (fun r => Some (period group_by (sale_date r))) df).

Definition revenue_chart (stats : list period_stat) : figure :=
  mkfigure Scatter "Revenue Trend"
    [("Revenue"%string, map (fun s => (ps_period s, ps_total_revenue s)) stats)].

Definition transaction_chart (stats : list period_stat) : figure :=
  mkfigure Bar "Transaction Count"
    [("Transactions"%string,
      map (fun s => (ps_period s, inject_Z (ps_transaction_count s))) stats)].

(** [groupby('salesperson').agg(sum).sort_values('total_revenue',
    ascending=False).head(10).to_dict('records')]: the records carry the two
    summed columns.  [sort_values] sorts with its default quicksort, which
    fixes no order among equal revenues; here equal revenues stay in group
    order, so only what holds for every such order is proved of this list. *)
Definition top_performers (df : list sales_row) : list (Q * Z) :=
  let sums := map (fun '(_, g) => (Qsum (map total_revenue g),
                                   Zsum (map transaction_count g)))
                  (groupby salesperson df) in
  firstn 10 (sort_desc (fun a b => Qltb (fst a) (fst b)) sums).

(** [groupby('payment_method')['total_revenue'].sum().to_dict()]: the query
    selects [s.payment_method] as it is, so it may be NULL, and a row whose
    payment method is NULL is in no group. *)
Definition payment_methods (df : list sales_row) : list (string * Q) :=
  map (fun '(k, g) => (k, Qsum (map total_revenue g)))
      (groupby payment_method df).

Record sales_body : Type := mkbody {
  resp_total_revenue : Q;
  resp_total_transactions : Z;
  resp_avg_transaction_value : Q;
  resp_growth_rate : Q;
  resp_charts : list (string * figure);
  resp_top_performers : list (Q * Z);
  resp_payment_methods : list (string * Q)
}.

(** The body returned when [df.empty]: lines 73-81. *)
Definition empty_body : sales_body := mkbody 0 0 0 0 [] [] [].

(** Lines 32-40 (and 331-339): the requested window, [end_date] defaulting
    to today and [start_date] to [days] days before [end_date]. *)
Definition resolve_window (days : Z) (today : date)
    (req_start req_end : option date) : result (date * date) :=
  let end_date := match req_end with Some d => d | None => today end in
  start_date <- match req_start with
                | Some d => Ok d
                | None => date_or_raise (sub_days end_date days)
                end ;;
  Ok (start_date, end_date).

Definition sales_analytics_body (src : row_source) (today : date) (req : request)
  : result sales_body :=
  w <- resolve_window 30 today (req_start_date req) (req_end_date req) ;;
  let '(start_date, end_date) := w in
  let df := fetch_sales src start_date end_date in
  match df with
  | [] => Ok empty_body
  | _ :: _ =>
      let total_revenue_ := Qsum (map total_revenue df) in
      let total_transactions := Zsum (map transaction_count df) in
      let avg := Qmean (map avg_transaction_value df) in
      p <- previous_period start_date end_date ;;
      let '(prev_start, prev_end) := p in
      let prev_result := prev_revenue_sql (sales_table src) prev_start prev_end in
      let prev_revenue := prev_revenue_of prev_result in
      g <- growth_rate total_revenue_ prev_revenue ;;
      let stats := period_stats (req_group_by req) df in
      Ok (mkbody total_revenue_ total_transactions avg g
            [("revenue_trend"%string, revenue_chart stats);
             ("transaction_count"%string, transaction_chart stats)]
            (top_performers df)
            (payment_methods df))
  end.

Definition sales_analytics (src : row_source) (today : date) (req : request)
  : response sales_body :=
  catch "Analytics generation failed: " (sales_analytics_body src today req).

End Sales.

(* ================================================================== *)
(** ** [inventory_analytics] *)
(* ================================================================== *)

Module Inventory.

(** A fetched row of the inventory query (the columns of [df]). *)
Record stock_row : Type := mkstock {
  id : Z;
  name : string;
  sku : string;
  current_stock : Z;
  min_stock : Z;
  max_stock : Z;
  price : Q;
  cost : Q;
  category_name : option string;
  supplier_name : option string;
  total_sold : Z;
  total_purchased : Z
}.

(** Lines 253-255. *)
Definition low_stock_items (df : list stock_row) : list stock_row :=
  filter (fun r => current_stock r <=? min_stock r) df.

Definition out_of_stock_items (df : list stock_row) : list stock_row :=
  filter (fun r => current_stock r =? 0) df.

Definition top_selling_products (df : list stock_row) : list (string * Z) :=
  map (fun r => (name r, total_sold r))
      (nlargest (fun a b => total_sold a <? total_sold b) 10 df).

(** Lines 258-259. *)
Definition total_inventory_value (df : list stock_row) : Q :=
  Qsum (map (fun r => inject_Z (current_stock r) * cost r)%Q df).

(** Lines 262-264. *)
Definition avg_inventory (df : list stock_row) : Q :=
  Qmean (map (fun r => inject_Z (current_stock r)) df).

Definition turnover_ratio (df : list stock_row) : result Q :=
  let avg_inventory := avg_inventory df in
  let total_sold := Zsum (map total_sold df) in
  if Qltb 0 avg_inventory
  then checked_div (inject_Z total_sold) avg_inventory
  else Ok 0%Q.

(** The third entry of column [Count] of [alert_data]: line 285. *)
Definition normal_count (df : list stock_row) : Z :=
  Zlen df - Zlen (low_stock_items df) - Zlen (out_of_stock_items df).

(** [alert_data]: lines 280-287, as (Status, Count) rows. *)
Definition alert_data (df : list stock_row) : list (string * Z) :=
  [("Low Stock"%string, Zlen (low_stock_items df));
   ("Out of Stock"%string, Zlen (out_of_stock_items df));
   ("Normal"%string, normal_count df)].

(** [px.bar(alert_data, x='Status', y='Count', color='Status')]: one bar
    per status. *)
Definition alert_chart (df : list stock_row) : figure :=
  mkfigure Bar "Inventory Status Overview"
    (map (fun '(s, c) => (s, [(s, inject_Z c)])) (alert_data df)).

(** [df.groupby('category_name')['current_stock'].sum()] as a pie chart:
    [px.pie] builds one trace, which it leaves unnamed, with a slice per row
    of [category_stock]. *)
Definition category_chart (df : list stock_row) : figure :=
  mkfigure Pie "Stock Distribution by Category"
    [(""%string,
      map (fun '(k, g) => (k, inject_Z (Zsum (map current_stock g))))
          (groupby category_name df))].

Record inventory_body : Type := mkbody {
  resp_total_products : Z;
  resp_low_stock_items : list stock_row;
  resp_out_of_stock_items : list stock_row;
  resp_top_selling_products : list (string * Z);
  resp_inventory_value : Q;
  resp_turnover_ratio : Q;
  resp_charts : list (string * figure)
}.

(** The body returned when [df.empty]: lines 241-249. *)
Definition empty_body : inventory_body := mkbody 0 [] [] [] 0 0 [].

Definition inventory_analytics_body (inventory_data : list stock_row)
  : result inventory_body :=
  let df := inventory_data in
  match df with
  | [] => Ok empty_body
  | _ :: _ =>
      t <- turnover_ratio df ;;
      Ok (mkbody (Zlen df)
            (low_stock_items df)
            (out_of_stock_items df)
            (top_selling_products df)
            (total_inventory_value df)
            t
            [("category_distribution"%string, category_chart df);
             ("inventory_status"%string, alert_chart df)])
  end.

Definition inventory_analytics (inventory_data : list stock_row)
  : response inventory_body :=
  catch "Inventory analytics failed: " (inventory_analytics_body inventory_data).

End Inventory.

(* ================================================================== *)
(** ** [financial_analytics] *)
(* ================================================================== *)

Module Financial.

(** Rows of [sales_df] and of [purchase_df]. *)
Record sales_day : Type := mksales {
  s_date : date;
  revenue : Q;
  subtotal : Q;
  tax : Q
}.

Record purchase_day : Type := mkpurchase {
  p_date : date;
  costs : Q
}.

(** A row of the frame [pd.merge] returns: a column coming from the frame
    that lacks the key is [NaN]. *)
Record merged_row : Type := mkmerged {
  m_date : date;
  m_revenue : option Q;
  m_subtotal : option Q;
  m_tax : option Q;
  m_costs : option Q
}.

(** A row of [financial_df] before the derived columns are added. *)
Record frame_row : Type := mkframe {
  f_date : date;
  f_revenue : Q;
  f_subtotal : Q;
  f_tax : Q;
  f_costs : Q
}.

(** A row of [financial_df] with [profit] and [cash_flow]. *)
Record fin_row : Type := mkfin {
  base : frame_row;
  profit : Q;
  cash_flow : Q
}.

(** The join keys of an outer merge.  pandas documents [how='outer'] as:
    use the union of the keys of both frames, as a SQL full outer join does,
    and sort the keys lexicographically.  So: the keys of both frames, each
    once, in ascending order. *)
Fixpoint insert_key (k : date) (ks : list date) : list date :=
  match ks with
  | [] => [k]
  | k' :: rest =>
      if date_ltb k k' then k :: ks
      else if date_eqb k k' then ks
      else k' :: insert_key k rest
  end.

Definition sorted_keys (ks : list date) : list date := fold_right insert_key [] ks.

Definition left_only (s : sales_day) : merged_row :=
  mkmerged (s_date s) (Some (revenue s)) (Some (subtotal s)) (Some (tax s)) None.

Definition right_only (p : purchase_day) : merged_row :=
  mkmerged (p_date p) None None None (Some (costs p)).

Definition both (s : sales_day) (p : purchase_day) : merged_row :=
  mkmerged (s_date s) (Some (revenue s)) (Some (subtotal s)) (Some (tax s))
           (Some (costs p)).

(** The rows of one key: every left row with the key paired with every
    right row with the key; a key one frame lacks keeps the rows of the
    other. *)
Definition join_key (l : list sales_day) (r : list purchase_day) (k : date)
  : list merged_row :=
  let ls := filter (fun s => date_eqb (s_date s) k) l in
  let rs := filter (fun p => date_eqb (p_date p) k) r in
  match ls, rs with
  | [], _ => map right_only rs
  | _, [] => map left_only ls
  | _, _ => flat_map (fun s => map (both s) rs) ls
  end.

(** [pd.merge(sales_df, purchase_df, on='date', how='outer')]. *)
Definition merge_outer (l : list sales_day) (r : list purchase_day)
  : list merged_row :=
  flat_map (join_key l r) (sorted_keys (map s_date l ++ map p_date r)).

(** [.fillna(0)]. *)
Definition fill0 (o : option Q) : Q := match o with Some q => q | None => 0%Q end.

Definition fillna0 (m : merged_row) : frame_row :=
  mkframe (m_date m) (fill0 (m_revenue m)) (fill0 (m_subtotal m))
          (fill0 (m_tax m)) (fill0 (m_costs m)).

(** Lines 375-384: the three ways [financial_df] is built; [None] is the
    branch that returns the empty report. *)
Definition merge_frames (sales_df : list sales_day) (purchase_df : list purchase_day)
  : option (list frame_row) :=
  match sales_df, purchase_df with
  | _ :: _, _ :: _ => Some (map fillna0 (merge_outer sales_df purchase_df))
  | _ :: _, [] =>
      Some (map (fun s => mkframe (s_date s) (revenue s) (subtotal s) (tax s) 0)
                sales_df)
  | [], _ :: _ =>
      Some (map (fun p => mkframe (p_date p) 0 0 0 (costs p)) purchase_df)
  | [], [] => None
  end.

(** [Series.cumsum()]. *)
Fixpoint cumsum_from (acc : Q) (l : list Q) : list Q :=
  match l with
  | [] => []
  | x :: t => let s := (acc + x)%Q in s :: cumsum_from s t
  end.

Definition cumsum (l : list Q) : list Q :=
  match l with
  | [] => []
  | x :: t => x :: cumsum_from x t
  end.

(** Lines 396-397: columns [profit] and [cash_flow]. *)
Definition derive (frame : list frame_row) : list fin_row :=
  let profits := map (fun f => (f_revenue f - f_costs f)%Q) frame in
  map (fun '(f, p, c) => mkfin f p c)
      (combine (combine frame profits) (cumsum profits)).

(** [financial_df] as it stands after line 397. *)
Definition financial_df (sales_df : list sales_day) (purchase_df : list purchase_day)
  : option (list fin_row) :=
  match merge_frames sales_df purchase_df with
  | Some frame => Some (derive frame)
  | None => None
  end.

Definition cash_flow_chart (df : list fin_row) : figure :=
  mkfigure Scatter "Cash Flow Trend"
    [("Cumulative Cash Flow"%string,
      map (fun r => (strftime_Ymd (f_date (base r)), cash_flow r)) df)].

Definition revenue_costs_chart (df : list fin_row) : figure :=
  mkfigure Scatter "Revenue vs Costs"
    [("Revenue"%string,
      map (fun r => (strftime_Ymd (f_date (base r)), f_revenue (base r))) df);
     ("Costs"%string,
      map (fun r => (strftime_Ymd (f_date (base r)), f_costs (base r))) df)].

Record financial_body : Type := mkbody {
  resp_total_revenue : Q;
  resp_total_costs : Q;
  resp_gross_profit : Q;
  resp_profit_margin : Q;
  resp_cash_flow : list (date * Q);
  resp_charts : list (string * figure)
}.

(** The body returned when both frames are empty: lines 386-393. *)
Definition empty_body : financial_body := mkbody 0 0 0 0 [] [].

Record row_source : Type := mksource {
  fetch_sales : date -> date -> list sales_day;
  fetch_purchases : date -> date -> list purchase_day
}.

Definition profit_margin (gross_profit total_revenue : Q) : result Q :=
  if Qltb 0 total_revenue
  then q <- checked_div gross_profit total_revenue ;; Ok (q * 100)%Q
  else Ok 0%Q.

Definition financial_analytics_body (src : row_source) (today : date)
    (req_start req_end : option date) : result financial_body :=
  w <- Sales.resolve_window 90 today req_start req_end ;;
  let '(start_date, end_date) := w in
  let sales_df := fetch_sales src start_date end_date in
  let purchase_df := fetch_purchases src start_date end_date in
  match financial_df sales_df purchase_df with
  | None => Ok empty_body
  | Some df =>
      let total_revenue := Qsum (map (fun r => f_revenue (base r)) df) in
      let total_costs := Qsum (map (fun r => f_costs (base r)) df) in
      let gross_profit := (total_revenue - total_costs)%Q in
      m <- profit_margin gross_profit total_revenue ;;
      Ok (mkbody total_revenue total_costs gross_profit m
            (map (fun r => (f_date (base r), cash_flow r)) df)
            [("cash_flow"%string, cash_flow_chart df);
             ("revenue_costs"%string, revenue_costs_chart df)])
  end.

Definition financial_analytics (src : row_source) (today : date)
    (req_start req_end : option date) : response financial_body :=
  catch "Financial analytics failed: "
        (financial_analytics_body src today req_start req_end).

End Financial.

(* ================================================================== *)
(** ** Reference notions the properties are stated with *)
(* ================================================================== *)

Module Spec.

(** Check of [month_day] at one day of the year: the month is a month, and
    the days before it plus the day of the month give the day back. *)
Definition month_day_ok (leap : bool) (r : Z) : bool :=
  let '(m, d) := month_day leap r in
  (1 <=? m) && (m <=? 12)
  && (DAYS_BEFORE_MONTH m + b2z ((2 <? m) && leap) + d =? r + 1)
  && (1 <=? d) && (d <=? DAYS_IN_MONTH m + b2z ((m =? 2) && leap)).

Import Inventory.

(** The two stock predicates, and the products that satisfy neither: the
    complement of the union of the low-stock and the out-of-stock products,
    which is what the Normal bar is meant to count. *)
Definition is_low (r : stock_row) : bool := current_stock r <=? min_stock r.
Definition is_out (r : stock_row) : bool := current_stock r =? 0.

Definition normal_items (df : list stock_row) : list stock_row :=
  filter (fun r => negb (is_low r || is_out r)) df.

Definition product (i : Z) (stock minimum : Z) : stock_row :=
  mkstock i "p" "sku" stock minimum 100 2 1 None None 0 0.

(** Ten products: three at or below their minimum, one of those at zero. *)
Definition ten_products : list stock_row :=
  [product 1 0 5; product 2 3 5; product 3 5 5;
   product 4 9 5; product 5 9 5; product 6 9 5; product 7 9 5;
   product 8 9 5; product 9 9 5; product 10 9 5].

Import Financial.

(** The row of a date in each series, if any. *)
Definition sales_on (l : list sales_day) (d : date) : option sales_day :=
  find (fun s => date_eqb (s_date s) d) l.

Definition purchase_on (l : list purchase_day) (d : date) : option purchase_day :=
  find (fun p => date_eqb (p_date p) d) l.

Definition revenue_on (l : list sales_day) (d : date) : Q :=
  match sales_on l d with Some s => revenue s | None => 0%Q end.

Definition costs_on (l : list purchase_day) (d : date) : Q :=
  match purchase_on l d with Some p => costs p | None => 0%Q end.

Definition dates (df : list fin_row) : list date :=
  map (fun r => f_date (base r)) df.

(** The row of a date in the merged frame when each series has at most one
    row per date: the columns of the series that has the date, 0 for those
    of a series that lacks it. *)
Definition filled_row (l : list sales_day) (r : list purchase_day) (k : date)
  : frame_row :=
  mkframe k (revenue_on l k)
    (match sales_on l k with Some s => subtotal s | None => 0%Q end)
    (match sales_on l k with Some s => tax s | None => 0%Q end)
    (costs_on r k).



(** Strict order of group keys, the rows a key selects in a frame, and the
    rows filed under a key in a list of groups. *)
Definition slt (a b : string) : Prop := String.compare a b = Lt.

Definition has_key {A} (key : A -> option string) (k : string) (a : A) : bool :=
  match key a with
  | Some k' => String.eqb k' k
  | None => false
  end.

Definition group_of {A} (k : string) (gs : list (string * list A)) : list A :=
  match find (fun kg => String.eqb (fst kg) k) gs with
  | Some kg => snd kg
  | None => []
  end.

End Spec.

Import Spec.

(* ================================================================== *)
(** ** Properties *)
(* ================================================================== *)

Import Sales.

(** *** Ordinals *)

Lemma month_day_ok_all :
  forallb (fun k => month_day_ok true (Z.of_nat k)) (seq 0 366) = true /\
  forallb (fun k => month_day_ok false (Z.of_nat k)) (seq 0 365) = true.
Proof. split; vm_compute; reflexivity. Qed.

Lemma month_day_spec (leap : bool) (r : Z) :
  0 <= r < 365 + b2z leap ->
  month_day_ok leap r = true.
Proof.
  intros Hr.
  destruct month_day_ok_all as [Ht Hf].
  rewrite forallb_forall in Ht, Hf.
  rewrite <- (Z2Nat.id r) by lia.
  destruct leap; [apply Ht | apply Hf]; apply in_seq; simpl in *; lia.
Qed.

Lemma is_leap_digits (a b c e : Z) :
  0 <= b <= 3 -> 0 <= c <= 24 -> 0 <= e <= 3 ->
  is_leap (400 * a + 100 * b + 4 * c + e + 1)
  = (e =? 3) && (negb (c =? 24) || (b =? 3)).
Proof.
  intros Hb Hc He. unfold is_leap.
  repeat match goal with
         | |- context [?x =? ?y] => destruct (Z.eqb_spec x y)
         end; simpl; try reflexivity; exfalso;
    Z.div_mod_to_equations; lia.
Qed.

Lemma days_before_year_digits (a b c e : Z) :
  0 <= b <= 3 -> 0 <= c <= 24 -> 0 <= e <= 3 ->
  days_before_year (400 * a + 100 * b + 4 * c + e + 1)
  = 146097 * a + 36524 * b + 1461 * c + 365 * e.
Proof.
  intros Hb Hc He. unfold days_before_year.
  cbv zeta.
  replace (400 * a + 100 * b + 4 * c + e + 1 - 1) with (400 * a + 100 * b + 4 * c + e) by ring.
  Z.div_mod_to_equations. lia.
Qed.

Lemma toordinal_ord2ymd (n : Z) : 0 < n -> toordinal (ord2ymd n) = n.
Proof.
  intros Hn. unfold ord2ymd. cbv zeta.
  set (n0 := n - 1).
  set (a := n0 / 146097). set (r1 := n0 mod 146097).
  set (b := r1 / 36524). set (r2 := r1 mod 36524).
  set (c := r2 / 1461). set (r3 := r2 mod 1461).
  set (e := r3 / 365). set (r4 := r3 mod 365).
  assert (E0 : n0 = 146097 * a + r1 /\ 0 <= r1 < 146097)
    by (unfold a, r1; split; [apply Z.div_mod | apply Z.mod_pos_bound]; lia).
  assert (E1 : r1 = 36524 * b + r2 /\ 0 <= r2 < 36524)
    by (unfold b, r2; split; [apply Z.div_mod | apply Z.mod_pos_bound]; lia).
  assert (E2 : r2 = 1461 * c + r3 /\ 0 <= r3 < 1461)
    by (unfold c, r3; split; [apply Z.div_mod | apply Z.mod_pos_bound]; lia).
  assert (E3 : r3 = 365 * e + r4 /\ 0 <= r4 < 365)
    by (unfold e, r4; split; [apply Z.div_mod | apply Z.mod_pos_bound]; lia).
  clearbody a r1 b r2 c r3 e r4.
  assert (Hb : 0 <= b <= 4) by lia.
  assert (Hc : 0 <= c <= 24) by lia.
  assert (He : 0 <= e <= 4) by lia.
  destruct (Z.eqb_spec e 4) as [He4|He4]; [|destruct (Z.eqb_spec b 4) as [Hb4|Hb4]];
    cbn [orb].
  - (* last day of a four-year cycle *)
    subst e. assert (r4 = 0) by lia. assert (c <= 23) by lia. assert (b <= 3) by lia.
    unfold toordinal, days_before_month. cbn [year month day].
    replace (a * 400 + 1 + b * 100 + c * 4 + 4 - 1)
      with (400 * a + 100 * b + 4 * c + 3 + 1) by ring.
    rewrite days_before_year_digits, is_leap_digits by lia.
    change (3 =? 3) with true.
    replace (c =? 24) with false by (symmetry; apply Z.eqb_neq; lia).
    change (2 <? 12) with true; change (DAYS_BEFORE_MONTH 12) with 334;
    cbn [andb orb negb b2z]. unfold n0 in *. lia.
  - (* last day of a 400-year cycle *)
    subst b. assert (r2 = 0) by lia. assert (c = 0) by lia.
    assert (e = 0) by lia. assert (r4 = 0) by lia. subst.
    unfold toordinal, days_before_month. cbn [year month day].
    replace (a * 400 + 1 + 4 * 100 + 0 * 4 + 0 - 1)
      with (400 * a + 100 * 3 + 4 * 24 + 3 + 1) by ring.
    rewrite days_before_year_digits, is_leap_digits by lia.
    change ((3 =? 3) && (negb (24 =? 24) || (3 =? 3))) with true.
    change (2 <? 12) with true; change (DAYS_BEFORE_MONTH 12) with 334;
    cbn [andb orb negb b2z]. unfold n0 in *. lia.
  - set (leap := (e =? 3) && (negb (c =? 24) || (b =? 3))).
    assert (Hr4 : 0 <= r4 < 365 + b2z leap) by (destruct leap; simpl; lia).
    pose proof (month_day_spec leap r4 Hr4) as Hmd.
    unfold month_day_ok in Hmd.
    destruct (month_day leap r4) as [m d].
    repeat (apply andb_prop in Hmd; destruct Hmd as [Hmd ?]).
    unfold toordinal, days_before_month. cbn [year month day].
    replace (a * 400 + 1 + b * 100 + c * 4 + e)
      with (400 * a + 100 * b + 4 * c + e + 1) by ring.
    rewrite days_before_year_digits, is_leap_digits by lia.
    fold leap. unfold n0 in *. lia.
Qed.

Example toordinal_2024_01_01 : toordinal (mkdate 2024 1 1) = 738886.
Proof. reflexivity. Qed.

Example fromordinal_leap_day : fromordinal 738945 = Some (mkdate 2024 2 29).
Proof. reflexivity. Qed.

Example sub_days_before_year_1 : sub_days (mkdate 1 1 20) 30 = None.
Proof. reflexivity. Qed.

(** *** Order on dates *)

Lemma date_eqb_eq (a b : date) : date_eqb a b = true <-> a = b.
Proof.
  unfold date_eqb. rewrite !andb_true_iff, !Z.eqb_eq.
  destruct a, b; cbn [year month day]. split.
  - intros [[-> ->] ->]. reflexivity.
  - intros [= -> -> ->]. auto.
Qed.

Lemma date_eqb_refl (a : date) : date_eqb a a = true.
Proof. apply date_eqb_eq. reflexivity. Qed.

Lemma date_eqb_neq (a b : date) : date_eqb a b = false <-> a <> b.
Proof.
  rewrite <- date_eqb_eq. destruct (date_eqb a b); split; congruence.
Qed.

Lemma date_ltb_lt (a b : date) :
  date_ltb a b = true <->
  year a < year b \/
  (year a = year b /\ (month a < month b \/ (month a = month b /\ day a < day b))).
Proof.
  unfold date_ltb.
  rewrite !orb_true_iff, !andb_true_iff, !orb_true_iff, !andb_true_iff,
          !Z.ltb_lt, !Z.eqb_eq.
  reflexivity.
Qed.

Lemma date_lt_irrefl (a : date) : ~ date_lt a a.
Proof. unfold date_lt. rewrite date_ltb_lt. lia. Qed.

Lemma date_lt_trans (a b c : date) : date_lt a b -> date_lt b c -> date_lt a c.
Proof. unfold date_lt. rewrite !date_ltb_lt. lia. Qed.

Lemma date_lt_total (a b : date) :
  date_ltb a b = false -> date_eqb a b = false -> date_lt b a.
Proof.
  intros H1 H2. unfold date_lt.
  apply not_true_iff_false in H1. rewrite date_ltb_lt in H1.
  apply date_eqb_neq in H2. rewrite date_ltb_lt.
  destruct a as [y1 m1 d1], b as [y2 m2 d2]; cbn [year month day] in *.
  assert (Hne : ~ (y1 = y2 /\ m1 = m2 /\ d1 = d2))
    by (intros (-> & -> & ->); apply H2; reflexivity).
  lia.
Qed.

Lemma sorted_dates_NoDup (ks : list date) :
  StronglySorted date_lt ks -> NoDup ks.
Proof.
  induction 1 as [|k ks Hs IH Hall]; constructor; [|exact IH].
  intros Hin. rewrite Forall_forall in Hall.
  exact (date_lt_irrefl k (Hall k Hin)).
Qed.

(** *** Ordinals follow the order of dates *)

Lemma days_before_year_succ (y : Z) :
  days_before_year (y + 1) = days_before_year y + 365 + b2z (is_leap y).
Proof.
  unfold days_before_year, is_leap. cbv zeta.
  replace (y + 1 - 1) with y by ring.
  repeat match goal with
         | |- context [?x =? ?z] => destruct (Z.eqb_spec x z)
         end; cbn [andb orb negb b2z]; Z.div_mod_to_equations; lia.
Qed.

Lemma days_before_year_mono (y1 y2 : Z) :
  y1 <= y2 -> days_before_year y1 <= days_before_year y2.
Proof.
  intros H. unfold days_before_year. cbv zeta. Z.div_mod_to_equations. lia.
Qed.

Lemma month_cases (m : Z) :
  1 <= m <= 12 ->
  m = 1 \/ m = 2 \/ m = 3 \/ m = 4 \/ m = 5 \/ m = 6 \/
  m = 7 \/ m = 8 \/ m = 9 \/ m = 10 \/ m = 11 \/ m = 12.
Proof. lia. Qed.

Lemma days_before_month_succ (y m : Z) :
  1 <= m <= 12 ->
  days_before_month y m + days_in_month y m
  = if m =? 12 then 365 + b2z (is_leap y) else days_before_month y (m + 1).
Proof.
  intros Hm. pose proof (month_cases m Hm) as C. clear Hm.
  unfold days_before_month, days_in_month.
  destruct (is_leap y);
    repeat (destruct C as [->|C]; [reflexivity|]); subst m; reflexivity.
Qed.

Lemma days_before_month_mono (y m1 m2 : Z) :
  1 <= m1 -> m1 <= m2 -> m2 <= 12 ->
  days_before_month y m1 <= days_before_month y m2.
Proof.
  intros H1 H12 H2.
  assert (C1 : 1 <= m1 <= 12) by lia. assert (C2 : 1 <= m2 <= 12) by lia.
  apply month_cases in C1, C2. unfold days_before_month.
  destruct (is_leap y);
    repeat (destruct C1 as [->|C1]);
    repeat (destruct C2 as [->|C2]); subst; cbn; lia.
Qed.

Lemma yday_bounds (d : date) :
  valid_date d ->
  1 <= days_before_month (year d) (month d) + day d
    <= 365 + b2z (is_leap (year d)).
Proof.
  intros (_ & Hm & Hd).
  pose proof (days_before_month_succ (year d) (month d) Hm) as Hs.
  pose proof (days_before_month_mono (year d) 1 (month d)) as H1.
  pose proof (days_before_month_mono (year d) (month d + 1) 12) as H12.
  change (days_before_month (year d) 1) with 0 in H1.
  assert (E12 : days_before_month (year d) 12 = 334 + b2z (is_leap (year d))).
  { unfold days_before_month. reflexivity. }
  destruct (Z.eqb_spec (month d) 12); destruct (is_leap (year d));
    cbn [b2z] in *; lia.
Qed.

Lemma toordinal_lt (a b : date) :
  valid_date a -> valid_date b -> date_lt a b -> toordinal a < toordinal b.
Proof.
  intros Va Vb Hlt. unfold date_lt in Hlt. rewrite date_ltb_lt in Hlt.
  pose proof (yday_bounds a Va) as Ba. pose proof (yday_bounds b Vb) as Bb.
  unfold toordinal.
  destruct Hlt as [Hy|[Hy Hm]].
  - pose proof (days_before_year_succ (year a)) as Hs.
    pose proof (days_before_year_mono (year a + 1) (year b)) as Hm.
    lia.
  - rewrite Hy in *. destruct Hm as [Hm|[Hm Hd]].
    + destruct Va as (_ & Hma & Hda), Vb as (_ & Hmb & Hdb).
      rewrite Hy in *.
      pose proof (days_before_month_succ (year b) (month a) Hma) as Hs.
      pose proof (days_before_month_mono (year b) (month a + 1) (month b)) as Hmo.
      destruct (Z.eqb_spec (month a) 12); lia.
    + rewrite Hm. lia.
Qed.

Lemma toordinal_inj (a b : date) :
  valid_date a -> valid_date b -> toordinal a = toordinal b -> a = b.
Proof.
  intros Va Vb H.
  destruct (date_ltb a b) eqn:E1.
  - apply (toordinal_lt a b Va Vb) in E1. lia.
  - destruct (date_eqb a b) eqn:E2; [apply date_eqb_eq; exact E2|].
    pose proof (date_lt_total a b E1 E2) as E3.
    apply (toordinal_lt b a Vb Va) in E3. lia.
Qed.

Lemma ts_pos_day (t : timestamp) :
  0 <= ts_second t < 86400 -> ts_pos t / 86400 = toordinal (ts_date t).
Proof.
  intros H. unfold ts_pos. symmetry.
  apply (Z.div_unique _ _ _ (ts_second t)); lia.
Qed.

(** *** Rationals and checked division *)

Lemma Qltb_lt (a b : Q) : Qltb a b = true <-> (a < b)%Q.
Proof.
  unfold Qltb. rewrite negb_true_iff.
  split; intros H.
  - apply Qnot_le_lt. intros Hle. apply Qle_bool_iff in Hle. congruence.
  - destruct (Qle_bool b a) eqn:E; [|reflexivity].
    apply Qle_bool_iff in E. exfalso. exact (Qlt_not_le _ _ H E).
Qed.

Lemma Qltb_ge (a b : Q) : Qltb a b = false <-> (b <= a)%Q.
Proof.
  unfold Qltb. rewrite negb_false_iff. apply Qle_bool_iff.
Qed.

Lemma checked_div_pos (a b : Q) : (0 < b)%Q -> checked_div a b = Ok (a / b)%Q.
Proof.
  intros Hb. unfold checked_div.
  destruct (Qeq_bool b 0) eqn:E; [|reflexivity].
  apply Qeq_bool_iff in E. rewrite E in Hb. exfalso. exact (Qlt_irrefl _ Hb).
Qed.

(** C3.  The growth rate is [(c - p) / p * 100] when the previous total [p]
    is positive and is 0 when [p <= 0]; the computation does not raise.
    For 150 against 100 it is 50. *)
Theorem C3_growth_rate_formula (c p : Q) :
  ((0 < p)%Q -> growth_rate c p = Ok ((c - p) / p * 100)%Q) /\
  ((p <= 0)%Q -> growth_rate c p = Ok 0%Q) /\
  (exists g, growth_rate 150 100 = Ok g /\ (g == 50)%Q).
Proof.
  split; [|split].
  - intros Hp. unfold growth_rate.
    apply Qltb_lt in Hp as Hb. rewrite Hb.
    rewrite checked_div_pos by exact Hp. reflexivity.
  - intros Hp. unfold growth_rate.
    apply Qltb_ge in Hp. rewrite Hp. reflexivity.
  - eexists. split; [reflexivity|]. reflexivity.
Qed.

Lemma C3_growth_rate_formula_witness :
  growth_rate 120 80 = Ok ((120 - 80) / 80 * 100)%Q /\ growth_rate 7 (-3) = Ok 0%Q.
Proof.
  split.
  - apply (proj1 (C3_growth_rate_formula 120 80)). reflexivity.
  - apply (proj1 (proj2 (C3_growth_rate_formula 7 (-3)))). discriminate.
Defined.

(** *** The comparison window *)

Lemma sub_days_ordinal (d p : date) (k : Z) :
  sub_days d k = Some p -> toordinal p = toordinal d - k.
Proof.
  unfold sub_days, add_days, fromordinal.
  destruct ((0 <? toordinal d + - k) && (toordinal d + - k <=? MAXORDINAL)) eqn:E;
    [|discriminate].
  intros [= <-]. apply andb_prop in E as [E _]. apply Z.ltb_lt in E.
  rewrite toordinal_ord2ymd by exact E. lia.
Qed.

Lemma previous_period_inv (start_date end_date prev_start prev_end : date) :
  previous_period start_date end_date = Ok (prev_start, prev_end) ->
  prev_end = start_date /\
  toordinal prev_start = toordinal start_date - diff_days end_date start_date.
Proof.
  unfold previous_period.
  destruct (sub_days start_date (diff_days end_date start_date)) as [p|] eqn:E;
    cbn; [|discriminate].
  intros [= <- <-]. split; [reflexivity|]. apply sub_days_ordinal. exact E.
Qed.

(** C4.  The comparison window the handler computes ends at [start_date],
    spans as many days as the requested window, selects the completed sales
    with [start_date - period <= created_at < start_date] (end excluded), and
    no sale is selected by both the window's query and the comparison
    query. *)
Theorem C4_previous_window (start_date end_date prev_start prev_end : date) :
  previous_period start_date end_date = Ok (prev_start, prev_end) ->
  prev_end = start_date /\
  diff_days prev_end prev_start = diff_days end_date start_date /\
  forall s : sale,
    (previous_where prev_start prev_end s = true <->
       completed s = true /\
       midnight start_date - 86400 * diff_days end_date start_date
         <= ts_pos (created_at s) < midnight start_date) /\
    (previous_where prev_start prev_end s = true ->
       current_where start_date end_date s = false).
Proof.
  intros H. apply previous_period_inv in H as [-> Hord].
  split; [reflexivity|]. split; [unfold diff_days in *; lia|].
  intros s. unfold previous_where, current_where, midnight, diff_days in *.
  rewrite Hord. split.
  - rewrite !andb_true_iff, Z.leb_le, Z.ltb_lt. split.
    + intros [[H1 H2] H3]. split; [exact H3|]. lia.
    + intros [H3 [H1 H2]]. repeat split; [lia | exact H2 | exact H3].
  - rewrite !andb_true_iff, Z.leb_le, Z.ltb_lt. intros [[H1 H2] H3].
    apply andb_false_iff. left. apply andb_false_iff. left.
    apply Z.leb_gt. exact H2.
Qed.

Lemma C4_previous_window_witness :
  let start_date := mkdate 2024 3 1 in
  let end_date := mkdate 2024 3 31 in
  let prev_start := mkdate 2024 1 31 in
  diff_days start_date prev_start = diff_days end_date start_date /\
  previous_where prev_start start_date
    (mksale (mkts (mkdate 2024 2 29) 86399) 10 "COMPLETED") = true /\
  current_where start_date end_date
    (mksale (mkts (mkdate 2024 2 29) 86399) 10 "COMPLETED") = false.
Proof.
  intros start_date end_date prev_start.
  destruct (C4_previous_window start_date end_date prev_start start_date eq_refl)
    as (_ & Hlen & Hrows).
  split; [exact Hlen|].
  destruct (Hrows (mksale (mkts (mkdate 2024 2 29) 86399) 10 "COMPLETED"))
    as [Hiff Hno].
  assert (Hin : previous_where prev_start start_date
            (mksale (mkts (mkdate 2024 2 29) 86399) 10 "COMPLETED") = true).
  { apply Hiff. split; [reflexivity|]. vm_compute. split; discriminate || reflexivity. }
  split; [exact Hin | exact (Hno Hin)].
Defined.
(** *** Inventory *)

Import Inventory.

Lemma Qsum_inject_Z (l : list Z) : (Qsum (map inject_Z l) == inject_Z (Zsum l))%Q.
Proof.
  induction l as [|x l IH]; simpl.
  - reflexivity.
  - rewrite IH, inject_Z_plus. reflexivity.
Qed.

Lemma avg_inventory_mean (df : list stock_row) :
  (avg_inventory df
   == inject_Z (Zsum (map current_stock df)) / inject_Z (Zlen df))%Q.
Proof.
  unfold avg_inventory, Qmean.
  rewrite <- (map_map current_stock inject_Z), Qsum_inject_Z.
  unfold Zlen. rewrite !length_map. reflexivity.
Qed.

Lemma turnover_ratio_pos (df : list stock_row) :
  (0 < avg_inventory df)%Q ->
  turnover_ratio df
  = Ok (inject_Z (Zsum (map total_sold df)) / avg_inventory df)%Q.
Proof.
  intros H. unfold turnover_ratio.
  apply Qltb_lt in H as Hb. rewrite Hb. apply checked_div_pos. exact H.
Qed.

Lemma turnover_ratio_nonpos (df : list stock_row) :
  (avg_inventory df <= 0)%Q -> turnover_ratio df = Ok 0%Q.
Proof.
  intros H. unfold turnover_ratio. apply Qltb_ge in H. rewrite H. reflexivity.
Qed.

Lemma turnover_ratio_total (df : list stock_row) :
  exists t, turnover_ratio df = Ok t.
Proof.
  destruct (Qlt_le_dec 0 (avg_inventory df)) as [H|H].
  - eexists. apply turnover_ratio_pos. exact H.
  - eexists. apply turnover_ratio_nonpos. exact H.
Qed.

(** C7.  For a non-empty frame the turnover ratio is the units sold divided
    by the mean of [current_stock] when that mean is positive, and 0 when
    it is not; the division is never reached with a zero divisor, so the
    computation never raises. *)
Theorem C7_turnover_ratio (df : list stock_row) :
  df <> [] ->
  (avg_inventory df
   == inject_Z (Zsum (map current_stock df)) / inject_Z (Zlen df))%Q /\
  ((0 < avg_inventory df)%Q ->
     turnover_ratio df
     = Ok (inject_Z (Zsum (map total_sold df)) / avg_inventory df)%Q) /\
  ((avg_inventory df <= 0)%Q -> turnover_ratio df = Ok 0%Q) /\
  (forall e, turnover_ratio df <> Raise e).
Proof.
  intros _. split; [apply avg_inventory_mean|].
  split; [apply turnover_ratio_pos|]. split; [apply turnover_ratio_nonpos|].
  intros e. destruct (turnover_ratio_total df) as [t ->]. discriminate.
Qed.

Lemma C7_turnover_ratio_witness :
  let sold := mkstock 1 "a" "s1" 4 1 9 2 1 None None 30 0 in
  let idle := mkstock 2 "b" "s2" 0 1 9 2 1 None None 5 0 in
  turnover_ratio [sold; idle] = Ok (inject_Z 35 / avg_inventory [sold; idle])%Q /\
  turnover_ratio [idle; idle] = Ok 0%Q.
Proof.
  intros sold idle. split.
  - apply (C7_turnover_ratio [sold; idle]).
    + discriminate.
    + reflexivity.
  - apply (C7_turnover_ratio [idle; idle]).
    + discriminate.
    + discriminate.
Defined.

Lemma inventory_analytics_ok (df : list stock_row) :
  exists body, inventory_analytics df = Response200 body /\
    resp_low_stock_items body = low_stock_items df /\
    resp_out_of_stock_items body = out_of_stock_items df /\
    resp_top_selling_products body = top_selling_products df.
Proof.
  unfold inventory_analytics, inventory_analytics_body.
  destruct df as [|r df].
  - eexists. split; [reflexivity|]. repeat split.
  - destruct (turnover_ratio_total (r :: df)) as [t ->].
    eexists. split; [reflexivity|]. repeat split.
Qed.

(** C10.  When no product has a negative minimum, the handler answers and
    every product listed as out of stock is also listed as low on stock. *)
Theorem C10_out_of_stock_is_low (df : list stock_row) :
  (forall r, In r df -> 0 <= min_stock r) ->
  exists body, inventory_analytics df = Response200 body /\
    forall r, In r (resp_out_of_stock_items body) ->
              In r (resp_low_stock_items body).
Proof.
  intros Hmin.
  destruct (inventory_analytics_ok df) as (body & Hb & Hlow & Hout & _).
  exists body. split; [exact Hb|].
  rewrite Hlow, Hout. unfold out_of_stock_items, low_stock_items.
  intros r Hr. apply filter_In in Hr as [Hin Hz]. apply filter_In.
  split; [exact Hin|]. apply Z.eqb_eq in Hz. apply Z.leb_le.
  specialize (Hmin r Hin). lia.
Qed.

Lemma C10_out_of_stock_is_low_witness :
  exists body, inventory_analytics ten_products = Response200 body /\
    forall r, In r (resp_out_of_stock_items body) ->
              In r (resp_low_stock_items body).
Proof.
  apply (C10_out_of_stock_is_low ten_products).
  intros r Hr. simpl in Hr.
  repeat (destruct Hr as [<-|Hr]; [cbn; lia|]). destruct Hr.
Defined.

(** The count the chart shows as Normal is the number of products that are
    neither low nor out of stock, less the number that are both. *)
Lemma normal_count_double_subtracts (df : list stock_row) :
  normal_count df
  = Zlen (normal_items df) - Zlen (filter (fun r => is_low r && is_out r) df).
Proof.
  unfold normal_count, normal_items, low_stock_items, out_of_stock_items, Zlen.
  fold is_low is_out.
  induction df as [|r df IH]; [reflexivity|].
  cbn [filter].
  destruct (is_low r), (is_out r); cbn [negb orb andb List.length];
    rewrite ?Nat2Z.inj_succ; lia.
Qed.

(** C1.  On ten products, three of them at or below their minimum and one
    of those three at zero, seven products are neither low nor out of
    stock, and the count the chart reports as Normal is 6. *)
Theorem C1_normal_count_ten_products :
  Zlen ten_products = 10 /\
  Zlen (low_stock_items ten_products) = 3 /\
  Zlen (out_of_stock_items ten_products) = 1 /\
  Zlen (normal_items ten_products) = 7 /\
  normal_count ten_products = 6 /\
  alert_data ten_products
  = [("Low Stock"%string, 3); ("Out of Stock"%string, 1); ("Normal"%string, 6)].
Proof. repeat split. Qed.

(** *** Descending stable sort *)

Section SortDescFacts.
Context {A : Type} (key : A -> Z).

Let ltb (a b : A) : bool := key a <? key b.
Let ge (a b : A) : Prop := key b <= key a.

Lemma insert_desc_perm (x : A) (s : list A) :
  Permutation (insert_desc ltb x s) (x :: s).
Proof.
  induction s as [|y s IH]; cbn [insert_desc]; [reflexivity|].
  destruct (ltb x y); [|reflexivity].
  rewrite IH. apply perm_swap.
Qed.

Lemma sort_desc_perm (l : list A) : Permutation (sort_desc ltb l) l.
Proof.
  induction l as [|x l IH]; cbn [sort_desc fold_right]; [reflexivity|].
  fold (sort_desc ltb l). rewrite insert_desc_perm. constructor. exact IH.
Qed.

Lemma insert_desc_sorted (x : A) (s : list A) :
  StronglySorted ge s -> StronglySorted ge (insert_desc ltb x s).
Proof.
  induction s as [|y s IH]; intros Hs; cbn [insert_desc].
  - constructor; constructor.
  - apply StronglySorted_inv in Hs as [Hs Hy].
    destruct (ltb x y) eqn:E; unfold ltb in E.
    + apply Z.ltb_lt in E. constructor; [apply IH; exact Hs|].
      eapply Permutation_Forall;
        [apply Permutation_sym, insert_desc_perm|].
      constructor; [unfold ge; lia | exact Hy].
    + apply Z.ltb_ge in E. constructor.
      * constructor; assumption.
      * constructor; [exact E|].
        eapply Forall_impl; [|exact Hy]. unfold ge. intros a Ha. lia.
Qed.

Lemma sort_desc_sorted (l : list A) : StronglySorted ge (sort_desc ltb l).
Proof.
  induction l as [|x l IH]; cbn [sort_desc fold_right]; [constructor|].
  apply insert_desc_sorted. exact IH.
Qed.

(** Rows with one key value keep their order: insertion only moves a row
    past rows with a strictly greater key. *)
Lemma insert_desc_stable (v : Z) (x : A) (s : list A) :
  filter (fun a => key a =? v) (insert_desc ltb x s)
  = filter (fun a => key a =? v) (x :: s).
Proof.
  induction s as [|y s IH]; cbn [insert_desc]; [reflexivity|].
  destruct (ltb x y) eqn:E; [|reflexivity]. unfold ltb in E.
  apply Z.ltb_lt in E. cbn [filter] in *. rewrite IH.
  destruct (Z.eqb_spec (key y) v), (Z.eqb_spec (key x) v);
    try reflexivity; lia.
Qed.

Lemma sort_desc_stable (v : Z) (l : list A) :
  filter (fun a => key a =? v) (sort_desc ltb l)
  = filter (fun a => key a =? v) l.
Proof.
  induction l as [|x l IH]; cbn [sort_desc fold_right]; [reflexivity|].
  fold (sort_desc ltb l). rewrite insert_desc_stable. cbn [filter].
  rewrite IH. reflexivity.
Qed.
End SortDescFacts.

(** C9.  The top-selling list is the first ten rows (all of them when there
    are fewer) of the frame rearranged in descending order of [total_sold],
    rows with equal [total_sold] keeping their frame order; it shows their
    [name] and [total_sold]. *)
Theorem C9_top_selling_products (df : list stock_row) :
  exists sorted : list stock_row,
    Permutation sorted df /\
    StronglySorted (fun a b => total_sold b <= total_sold a) sorted /\
    (forall v, filter (fun r => total_sold r =? v) sorted
               = filter (fun r => total_sold r =? v) df) /\
    top_selling_products df
    = map (fun r => (name r, total_sold r)) (firstn 10 sorted) /\
    (List.length (top_selling_products df) <= 10)%nat.
Proof.
  exists (sort_desc (fun a b => total_sold a <? total_sold b) df).
  split; [apply (sort_desc_perm total_sold)|].
  split; [apply (sort_desc_sorted total_sold)|].
  split; [intros v; apply (sort_desc_stable total_sold)|].
  split; [reflexivity|].
  unfold top_selling_products, nlargest. rewrite length_map. apply firstn_le_length.
Qed.

(** *** Empty row sets *)

(** C6.  Each handler, when the rows it fetched are empty, answers with its
    zero report: every number 0, every list and the charts empty.  No error
    response, no missing field. *)
Theorem C6_empty_rows_zero_report :
  (forall (src : Sales.row_source) (today : date) (req : request)
          (start_date end_date : date),
      resolve_window 30 today (req_start_date req) (req_end_date req)
      = Ok (start_date, end_date) ->
      Sales.fetch_sales src start_date end_date = [] ->
      sales_analytics src today req
      = Response200 (Sales.mkbody 0 0 0 0 [] [] [])) /\
  inventory_analytics [] = Response200 (Inventory.mkbody 0 [] [] [] 0 0 []) /\
  (forall (src : Financial.row_source) (today : date)
          (req_start req_end : option date) (start_date end_date : date),
      resolve_window 90 today req_start req_end = Ok (start_date, end_date) ->
      Financial.fetch_sales src start_date end_date = [] ->
      Financial.fetch_purchases src start_date end_date = [] ->
      Financial.financial_analytics src today req_start req_end
      = Response200 (Financial.mkbody 0 0 0 0 [] [])).
Proof.
  split; [|split].
  - intros src today req start_date end_date Hw Hrows.
    unfold sales_analytics, sales_analytics_body.
    rewrite Hw. cbn [bind]. rewrite Hrows. reflexivity.
  - reflexivity.
  - intros src today req_start req_end start_date end_date Hw Hs Hp.
    unfold Financial.financial_analytics, Financial.financial_analytics_body.
    rewrite Hw. cbn [bind]. rewrite Hs, Hp. reflexivity.
Qed.

Lemma C6_empty_rows_zero_report_witness :
  sales_analytics (Sales.mksource [] (fun _ _ => [])) (mkdate 2024 6 30)
                  (mkrequest None None "day")
  = Response200 (Sales.mkbody 0 0 0 0 [] [] []) /\
  Financial.financial_analytics
    (Financial.mksource (fun _ _ => []) (fun _ _ => [])) (mkdate 2024 6 30)
    (Some (mkdate 2024 1 1)) None
  = Response200 (Financial.mkbody 0 0 0 0 [] []).
Proof.
  destruct C6_empty_rows_zero_report as (Hs & _ & Hf). split.
  - apply (Hs _ _ _ (mkdate 2024 5 31) (mkdate 2024 6 30)); reflexivity.
  - apply (Hf _ _ _ _ (mkdate 2024 1 1) (mkdate 2024 6 30)); reflexivity.
Defined.

(** *** Period keys *)

Lemma digit_inj (a b : Z) : digit a = digit b -> a mod 10 = b mod 10.
Proof.
  unfold digit. intros H.
  assert (Ha : 0 <= a mod 10 < 10) by (apply Z.mod_pos_bound; lia).
  assert (Hb : 0 <= b mod 10 < 10) by (apply Z.mod_pos_bound; lia).
  apply (f_equal N_of_ascii) in H.
  rewrite !N_ascii_embedding in H by lia.
  lia.
Qed.

Lemma pad2_inj (a b : Z) :
  0 <= a < 100 -> 0 <= b < 100 -> pad2 a = pad2 b -> a = b.
Proof.
  intros Ha Hb H. unfold pad2 in H. injection H as H1 H0.
  apply digit_inj in H1, H0.
  rewrite (Z.mod_small (a / 10)), (Z.mod_small (b / 10)) in H1
    by (split; [apply Z.div_pos | apply Z.div_lt_upper_bound]; lia).
  rewrite (Z.div_mod a 10), (Z.div_mod b 10) by lia. lia.
Qed.

Lemma pad4_inj (a b : Z) :
  0 <= a < 10000 -> 0 <= b < 10000 -> pad4 a = pad4 b -> a = b.
Proof.
  intros Ha Hb H. unfold pad4 in H. injection H as H3 H2 H1 H0.
  apply digit_inj in H3, H2, H1, H0.
  Z.div_mod_to_equations. lia.
Qed.

Lemma days_in_month_le (y m : Z) : days_in_month y m <= 31.
Proof.
  unfold days_in_month. destruct ((m =? 2) && is_leap y); [lia|].
  unfold DAYS_IN_MONTH.
  destruct m as [|p|p]; try lia.
  do 4 (destruct p as [p|p|]; try lia).
Qed.

Lemma strftime_Ymd_inj (d1 d2 : date) :
  valid_date d1 -> valid_date d2 ->
  strftime_Ymd d1 = strftime_Ymd d2 -> d1 = d2.
Proof.
  intros (Hy1 & Hm1 & Hd1) (Hy2 & Hm2 & Hd2) H.
  pose proof (days_in_month_le (year d1) (month d1)).
  pose proof (days_in_month_le (year d2) (month d2)).
  destruct d1 as [y1 m1 dd1], d2 as [y2 m2 dd2]. cbn [year month day] in *.
  unfold strftime_Ymd in H. cbn [year month day] in H.
  assert (Hp : pad4 y1 = pad4 y2 /\ pad2 m1 = pad2 m2 /\ pad2 dd1 = pad2 dd2).
  { unfold pad4, pad2 in *. cbn [append] in H.
    injection H as -> -> -> -> -> -> -> ->. repeat split. }
  destruct Hp as (Py & Pm & Pd).
  apply pad4_inj in Py; [|lia|lia].
  apply pad2_inj in Pm; [|lia|lia].
  apply pad2_inj in Pd; [|lia|lia].
  subst. reflexivity.
Qed.

Lemma period_default (g : string) (d : date) :
  g <> "week"%string -> g <> "month"%string -> period g d = strftime_Ymd d.
Proof.
  intros Hw Hm. unfold period.
  apply String.eqb_neq in Hw, Hm. rewrite Hw, Hm. reflexivity.
Qed.

Example period_week : period "week" (mkdate 2024 12 31) = "2024-W52"%string.
Proof. reflexivity. Qed.

Example period_week_0 : period "week" (mkdate 2024 1 6) = "2024-W00"%string.
Proof. reflexivity. Qed.

Example period_month : period "month" (mkdate 2024 3 9) = "2024-03"%string.
Proof. reflexivity. Qed.

Example period_day : period "day" (mkdate 2024 3 9) = "2024-03-09"%string.
Proof. reflexivity. Qed.

(** C8.  A [group_by] other than week and month gives the key of day
    granularity, and at day granularity two sales get the same period key
    exactly when their timestamps lie on the same calendar day: the same
    date, which is the same day number on the time line. *)
Theorem C8_day_period_key (g : string) (t1 t2 : timestamp) :
  valid_timestamp t1 -> valid_timestamp t2 ->
  g <> "week"%string -> g <> "month"%string ->
  period_of g t1 = period_of "day" t1 /\
  (period_of "day" t1 = period_of "day" t2 <-> DATE t1 = DATE t2) /\
  (DATE t1 = DATE t2 <-> ts_pos t1 / 86400 = ts_pos t2 / 86400).
Proof.
  intros [V1 S1] [V2 S2] Hw Hm. unfold period_of. split; [|split].
  - rewrite (period_default g) by assumption. reflexivity.
  - split.
    + apply strftime_Ymd_inj; assumption.
    + intros ->. reflexivity.
  - rewrite !ts_pos_day by assumption. unfold DATE. split.
    + intros ->. reflexivity.
    + apply toordinal_inj; assumption.
Qed.

Lemma C8_day_period_key_witness :
  let morning := mkts (mkdate 2024 2 29) 3600 in
  let evening := mkts (mkdate 2024 2 29) 82800 in
  period_of "hour" morning = period_of "day" morning /\
  period_of "day" morning = period_of "day" evening.
Proof.
  intros morning evening.
  assert (V : forall s, 0 <= s < 86400 -> valid_timestamp (mkts (mkdate 2024 2 29) s)).
  { intros s Hs. split; [|exact Hs]. cbv. intuition discriminate. }
  destruct (C8_day_period_key "hour" morning evening) as (Hd & Hiff & _).
  - apply V. lia.
  - apply V. lia.
  - discriminate.
  - discriminate.
  - split; [exact Hd | apply Hiff; reflexivity].
Defined.

(** *** The keys of the outer merge *)

Import Financial.

Lemma insert_key_In (k x : date) (ks : list date) :
  In x (insert_key k ks) <-> x = k \/ In x ks.
Proof.
  induction ks as [|k' ks IH]; cbn [insert_key].
  - simpl. intuition.
  - destruct (date_ltb k k'); [simpl; intuition|].
    destruct (date_eqb k k') eqn:E.
    + apply date_eqb_eq in E. subst. simpl. intuition.
    + simpl. rewrite IH. intuition.
Qed.

Lemma insert_key_sorted (k : date) (ks : list date) :
  StronglySorted date_lt ks -> StronglySorted date_lt (insert_key k ks).
Proof.
  induction ks as [|k' ks IH]; intros Hs; cbn [insert_key].
  - constructor; constructor.
  - apply StronglySorted_inv in Hs as Hinv. destruct Hinv as [Hs' Hall].
    destruct (date_ltb k k') eqn:Elt.
    + constructor; [exact Hs|]. constructor; [exact Elt|].
      eapply Forall_impl; [|exact Hall].
      intros a Ha. exact (date_lt_trans _ _ _ Elt Ha).
    + destruct (date_eqb k k') eqn:Eeq; [exact Hs|].
      constructor; [apply IH; exact Hs'|].
      apply Forall_forall. intros x Hx. apply insert_key_In in Hx as [->|Hx].
      * apply date_lt_total; assumption.
      * rewrite Forall_forall in Hall. apply Hall. exact Hx.
Qed.

Lemma sorted_keys_In (x : date) (ks : list date) :
  In x (sorted_keys ks) <-> In x ks.
Proof.
  induction ks as [|k ks IH]; cbn [sorted_keys fold_right]; [reflexivity|].
  fold (sorted_keys ks). rewrite insert_key_In, IH. simpl. intuition.
Qed.

Lemma sorted_keys_sorted (ks : list date) : StronglySorted date_lt (sorted_keys ks).
Proof.
  induction ks as [|k ks IH]; cbn [sorted_keys fold_right]; [constructor|].
  apply insert_key_sorted. exact IH.
Qed.

(** *** Rows of a key in a frame with one row per key *)

Section UniqueKey.
Context {A : Type} (key : A -> date).

Lemma filter_key_absent (k : date) (l : list A) :
  ~ In k (map key l) -> filter (fun a => date_eqb (key a) k) l = [].
Proof.
  induction l as [|a l IH]; intros Hn; cbn [filter]; [reflexivity|].
  simpl in Hn. destruct (date_eqb (key a) k) eqn:E.
  - apply date_eqb_eq in E. tauto.
  - apply IH. tauto.
Qed.

Lemma find_key_absent (k : date) (l : list A) :
  ~ In k (map key l) -> find (fun a => date_eqb (key a) k) l = None.
Proof.
  induction l as [|a l IH]; intros Hn; cbn [find]; [reflexivity|].
  simpl in Hn. destruct (date_eqb (key a) k) eqn:E.
  - apply date_eqb_eq in E. tauto.
  - apply IH. tauto.
Qed.

Lemma filter_key_find (k : date) (l : list A) :
  NoDup (map key l) ->
  filter (fun a => date_eqb (key a) k) l
  = match find (fun a => date_eqb (key a) k) l with
    | Some a => [a]
    | None => []
    end.
Proof.
  induction l as [|a l IH]; intros Hnd; cbn [filter find]; [reflexivity|].
  simpl in Hnd. apply NoDup_cons_iff in Hnd as [Hn Hnd].
  destruct (date_eqb (key a) k) eqn:E.
  - apply date_eqb_eq in E. subst k.
    rewrite filter_key_absent by exact Hn. reflexivity.
  - apply IH. exact Hnd.
Qed.

Lemma find_key_date (k : date) (l : list A) (a : A) :
  find (fun a => date_eqb (key a) k) l = Some a -> In a l /\ key a = k.
Proof.
  intros H. apply find_some in H as [Hin E]. apply date_eqb_eq in E. auto.
Qed.

Lemma find_key_present (k : date) (l : list A) :
  In k (map key l) -> exists a, find (fun a => date_eqb (key a) k) l = Some a.
Proof.
  intros Hin. destruct (find (fun a => date_eqb (key a) k) l) as [a|] eqn:E.
  - eauto.
  - exfalso. apply in_map_iff in Hin as (a & Ha & Hin).
    pose proof (find_none _ _ E a Hin) as Hf. cbn in Hf.
    rewrite Ha, date_eqb_refl in Hf. discriminate.
Qed.

Lemma find_key_self (l : list A) (a : A) :
  NoDup (map key l) -> In a l ->
  find (fun b => date_eqb (key b) (key a)) l = Some a.
Proof.
  induction l as [|b l IH]; intros Hnd Hin; [destruct Hin|].
  simpl in Hnd. apply NoDup_cons_iff in Hnd as [Hn Hnd].
  cbn [find]. destruct Hin as [->|Hin].
  - rewrite date_eqb_refl. reflexivity.
  - destruct (date_eqb (key b) (key a)) eqn:E.
    + apply date_eqb_eq in E. exfalso. apply Hn. rewrite E.
      apply in_map. exact Hin.
    + apply IH; assumption.
Qed.
End UniqueKey.

(** *** The outer merge on frames with one row per date *)

Section MergeFacts.
Variables (l : list sales_day) (r : list purchase_day).
Hypothesis Hl : NoDup (map s_date l).
Hypothesis Hr : NoDup (map p_date r).

Lemma join_key_unique (k : date) :
  join_key l r k
  = match sales_on l k, purchase_on r k with
    | Some s, Some p => [both s p]
    | Some s, None => [left_only s]
    | None, Some p => [right_only p]
    | None, None => []
    end.
Proof.
  unfold join_key, sales_on, purchase_on.
  rewrite (filter_key_find s_date k l Hl), (filter_key_find p_date k r Hr).
  destruct (find _ l), (find _ r); reflexivity.
Qed.

Lemma join_key_filled (k : date) :
  In k (map s_date l ++ map p_date r) ->
  map fillna0 (join_key l r k) = [filled_row l r k].
Proof.
  intros Hin. rewrite join_key_unique. unfold filled_row, revenue_on, costs_on.
  destruct (sales_on l k) as [s|] eqn:Es, (purchase_on r k) as [p|] eqn:Ep;
    cbn [map]; unfold fillna0, both, left_only, right_only;
    cbn [m_date m_revenue m_subtotal m_tax m_costs fill0].
  - apply (find_key_date s_date) in Es as [_ <-]. reflexivity.
  - apply (find_key_date s_date) in Es as [_ <-]. reflexivity.
  - apply (find_key_date p_date) in Ep as [_ <-]. reflexivity.
  - exfalso. apply in_app_or in Hin as [Hin|Hin].
    + apply (find_key_present s_date) in Hin as [s Hs].
      unfold sales_on in Es. congruence.
    + apply (find_key_present p_date) in Hin as [p Hp].
      unfold purchase_on in Ep. congruence.
Qed.

Lemma merge_keys_filled (ks : list date) :
  (forall k, In k ks -> In k (map s_date l ++ map p_date r)) ->
  map fillna0 (flat_map (join_key l r) ks) = map (filled_row l r) ks.
Proof.
  induction ks as [|k ks IH]; intros Hks; cbn [flat_map map]; [reflexivity|].
  rewrite map_app, join_key_filled by (apply Hks; left; reflexivity).
  rewrite IH by (intros k' Hk'; apply Hks; right; exact Hk').
  reflexivity.
Qed.

Lemma merge_outer_filled :
  map fillna0 (merge_outer l r)
  = map (filled_row l r) (sorted_keys (map s_date l ++ map p_date r)).
Proof.
  unfold merge_outer. apply merge_keys_filled.
  intros k Hk. apply sorted_keys_In. exact Hk.
Qed.
End MergeFacts.

Lemma merge_frames_rows (l : list sales_day) (r : list purchase_day) :
  NoDup (map s_date l) -> NoDup (map p_date r) ->
  l <> [] \/ r <> [] ->
  exists ks : list date,
    merge_frames l r = Some (map (filled_row l r) ks) /\
    (forall d, In d ks <-> In d (map s_date l) \/ In d (map p_date r)) /\
    NoDup ks /\
    (StronglySorted date_lt (map s_date l) ->
     StronglySorted date_lt (map p_date r) ->
     StronglySorted date_lt ks).
Proof.
  intros Hl Hr Hne.
  destruct l as [|s l], r as [|p r].
  - destruct Hne as [H|H]; contradiction H; reflexivity.
  - (* purchases only *)
    exists (map p_date (p :: r)). split; [|split; [|split]].
    + unfold merge_frames. f_equal. rewrite map_map.
      apply map_ext_in. intros a Ha.
      unfold filled_row, revenue_on, costs_on, sales_on, purchase_on.
      rewrite (find_key_self p_date _ a Hr Ha). reflexivity.
    + intros d. simpl. tauto.
    + exact Hr.
    + intros _ H. exact H.
  - (* sales only *)
    exists (map s_date (s :: l)). split; [|split; [|split]].
    + unfold merge_frames. f_equal. rewrite map_map.
      apply map_ext_in. intros a Ha.
      unfold filled_row, revenue_on, costs_on, sales_on, purchase_on.
      rewrite (find_key_self s_date _ a Hl Ha). reflexivity.
    + intros d. simpl. tauto.
    + exact Hl.
    + intros H _. exact H.
  - (* both: the outer merge *)
    exists (sorted_keys (map s_date (s :: l) ++ map p_date (p :: r))).
    split; [|split; [|split]].
    + unfold merge_frames. f_equal. apply merge_outer_filled; assumption.
    + intros d. rewrite sorted_keys_In, in_app_iff. reflexivity.
    + apply sorted_dates_NoDup, sorted_keys_sorted.
    + intros _ _. apply sorted_keys_sorted.
Qed.

(** *** The derived columns *)

Lemma cumsum_from_length (acc : Q) (l : list Q) :
  List.length (cumsum_from acc l) = List.length l.
Proof.
  revert acc. induction l as [|x l IH]; intros acc; cbn; [reflexivity|].
  rewrite IH. reflexivity.
Qed.

Lemma cumsum_length (l : list Q) : List.length (cumsum l) = List.length l.
Proof.
  destruct l as [|x l]; cbn; [reflexivity|]. rewrite cumsum_from_length.
  reflexivity.
Qed.

Lemma cumsum_from_nth (acc : Q) (l : list Q) (i : nat) :
  (i < List.length l)%nat ->
  (nth i (cumsum_from acc l) 0 == acc + Qsum (firstn (S i) l))%Q.
Proof.
  revert acc i. induction l as [|x l IH]; intros acc i Hi; [inversion Hi|].
  destruct i as [|i].
  - cbn. ring.
  - cbn [cumsum_from nth]. rewrite IH by (simpl in Hi; lia).
    change (firstn (S (S i)) (x :: l)) with (x :: firstn (S i) l).
    cbn [Qsum fold_right]. fold (Qsum (firstn (S i) l)). ring.
Qed.

Lemma cumsum_nth (l : list Q) (i : nat) :
  (i < List.length l)%nat ->
  (nth i (cumsum l) 0 == Qsum (firstn (S i) l))%Q.
Proof.
  destruct l as [|x l]; intros Hi; [inversion Hi|].
  destruct i as [|i].
  - cbn. ring.
  - cbn [cumsum nth]. rewrite cumsum_from_nth by (simpl in Hi; lia).
    change (firstn (S (S i)) (x :: l)) with (x :: firstn (S i) l).
    cbn [Qsum fold_right]. reflexivity.
Qed.

Lemma zip3_columns (fs : list frame_row) (ps cs : list Q) :
  List.length ps = List.length fs -> List.length cs = List.length fs ->
  let df := map (fun '(f, p, c) => mkfin f p c) (combine (combine fs ps) cs) in
  map base df = fs /\ map profit df = ps /\ map cash_flow df = cs.
Proof.
  revert ps cs. induction fs as [|f fs IH]; intros [|p ps] [|c cs] Hp Hc;
    try discriminate; cbn; [repeat split|].
  injection Hp as Hp. injection Hc as Hc.
  destruct (IH ps cs Hp Hc) as (H1 & H2 & H3).
  cbn in H1, H2, H3. rewrite H1, H2, H3. repeat split.
Qed.

Lemma derive_columns (frame : list frame_row) :
  map base (derive frame) = frame /\
  map profit (derive frame) = map (fun f => f_revenue f - f_costs f)%Q frame /\
  map cash_flow (derive frame)
  = cumsum (map (fun f => f_revenue f - f_costs f)%Q frame).
Proof.
  unfold derive. apply zip3_columns.
  - apply length_map.
  - rewrite cumsum_length. apply length_map.
Qed.

Lemma derive_profit (frame : list frame_row) (row : fin_row) :
  In row (derive frame) ->
  In (base row) frame /\
  profit row = (f_revenue (base row) - f_costs (base row))%Q.
Proof.
  unfold derive.
  set (ps := map (fun f => (f_revenue f - f_costs f)%Q) frame).
  intros Hin. apply in_map_iff in Hin as ([[f p] c] & <- & Hin).
  apply in_combine_l in Hin. cbn [base profit].
  split; [apply in_combine_l in Hin; exact Hin|].
  unfold ps in Hin. clear ps.
  induction frame as [|f' frame IH]; [destruct Hin|].
  cbn in Hin. destruct Hin as [[= <- <-]|Hin]; [reflexivity|]. apply IH. exact Hin.
Qed.

Lemma financial_df_rows (l : list sales_day) (r : list purchase_day) :
  NoDup (map s_date l) -> NoDup (map p_date r) ->
  l <> [] \/ r <> [] ->
  exists (ks : list date) (df : list fin_row),
    financial_df l r = Some df /\
    map base df = map (filled_row l r) ks /\
    dates df = ks /\
    (forall d, In d ks <-> In d (map s_date l) \/ In d (map p_date r)) /\
    NoDup ks /\
    (StronglySorted date_lt (map s_date l) ->
     StronglySorted date_lt (map p_date r) ->
     StronglySorted date_lt ks).
Proof.
  intros Hl Hr Hne.
  destruct (merge_frames_rows l r Hl Hr Hne) as (ks & Hm & Hin & Hnd & Hs).
  exists ks, (derive (map (filled_row l r) ks)).
  unfold financial_df. rewrite Hm.
  destruct (derive_columns (map (filled_row l r) ks)) as (Hb & _ & _).
  split; [reflexivity|]. split; [exact Hb|]. split; [|auto].
  unfold dates. rewrite <- (map_map base f_date), Hb, map_map.
  cbn [filled_row f_date]. apply map_id.
Qed.


Example merged_frame_reorders :
  option_map dates
    (financial_df [mksales (mkdate 2024 1 3) 10 10 0; mksales (mkdate 2024 1 1) 20 20 0]
                  [mkpurchase (mkdate 2024 1 2) 5])
  = Some [mkdate 2024 1 1; mkdate 2024 1 2; mkdate 2024 1 3].
Proof. reflexivity. Qed.

Lemma filled_row_sales (l : list sales_day) (r : list purchase_day) (s : sales_day) :
  NoDup (map s_date l) -> In s l ->
  f_revenue (filled_row l r (s_date s)) = revenue s /\
  f_subtotal (filled_row l r (s_date s)) = subtotal s /\
  f_tax (filled_row l r (s_date s)) = tax s.
Proof.
  intros Hl Hin. unfold filled_row, revenue_on, sales_on.
  cbn [f_revenue f_subtotal f_tax].
  rewrite (find_key_self s_date l s Hl Hin). repeat split.
Qed.

Lemma filled_row_no_sales (l : list sales_day) (r : list purchase_day) (k : date) :
  ~ In k (map s_date l) ->
  f_revenue (filled_row l r k) = 0%Q /\
  f_subtotal (filled_row l r k) = 0%Q /\
  f_tax (filled_row l r k) = 0%Q.
Proof.
  intros Hn. unfold filled_row, revenue_on, sales_on.
  cbn [f_revenue f_subtotal f_tax].
  rewrite (find_key_absent s_date k l Hn). repeat split.
Qed.

Lemma filled_row_purchase (l : list sales_day) (r : list purchase_day)
    (p : purchase_day) :
  NoDup (map p_date r) -> In p r ->
  f_costs (filled_row l r (p_date p)) = costs p.
Proof.
  intros Hr Hin. unfold filled_row, costs_on, purchase_on. cbn [f_costs].
  rewrite (find_key_self p_date r p Hr Hin). reflexivity.
Qed.

Lemma filled_row_no_purchase (l : list sales_day) (r : list purchase_day) (k : date) :
  ~ In k (map p_date r) -> f_costs (filled_row l r k) = 0%Q.
Proof.
  intros Hn. unfold filled_row, costs_on, purchase_on. cbn [f_costs].
  rewrite (find_key_absent p_date k r Hn). reflexivity.
Qed.

(** C5.  With at most one row per date in each series and at least one row
    in all, the merged frame has exactly the dates of either series, each
    once.  A row carries the revenue, subtotal and tax of the sales row of
    its date and the costs of the purchase row of its date; where a series
    has no row for the date its columns are 0; the profit is revenue less
    costs.  Revenue 100 on 2024-01-01 only and costs 40 on 2024-01-02 only
    give the rows (01-01, 100, 0, 100, 100) and (01-02, 0, 40, -40, 60). *)
Theorem C5_financial_outer_join (sales_df : list sales_day)
    (purchase_df : list purchase_day) :
  NoDup (map s_date sales_df) -> NoDup (map p_date purchase_df) ->
  sales_df <> [] \/ purchase_df <> [] ->
  (exists df : list fin_row,
      financial_df sales_df purchase_df = Some df /\
      NoDup (dates df) /\
      (forall d, In d (dates df) <->
                 In d (map s_date sales_df) \/ In d (map p_date purchase_df)) /\
      (forall row, In row df ->
         (forall s, In s sales_df -> s_date s = f_date (base row) ->
            f_revenue (base row) = revenue s /\
            f_subtotal (base row) = subtotal s /\
            f_tax (base row) = tax s) /\
         (~ In (f_date (base row)) (map s_date sales_df) ->
            f_revenue (base row) = 0%Q /\
            f_subtotal (base row) = 0%Q /\
            f_tax (base row) = 0%Q) /\
         (forall p, In p purchase_df -> p_date p = f_date (base row) ->
            f_costs (base row) = costs p) /\
         (~ In (f_date (base row)) (map p_date purchase_df) ->
            f_costs (base row) = 0%Q) /\
         profit row = (f_revenue (base row) - f_costs (base row))%Q)) /\
  (forall st tx : Q,
      financial_df [mksales (mkdate 2024 1 1) 100 st tx]
                   [mkpurchase (mkdate 2024 1 2) 40]
      = Some [mkfin (mkframe (mkdate 2024 1 1) 100 st tx 0) 100 100;
              mkfin (mkframe (mkdate 2024 1 2) 0 0 0 40) (-40) 60]).
Proof.
  intros Hl Hr Hne. split; [|reflexivity].
  destruct (financial_df_rows _ _ Hl Hr Hne)
    as (ks & df & Hdf & Hbase & Hdates & Hin & Hnd & _).
  exists df. split; [exact Hdf|]. rewrite Hdates.
  split; [exact Hnd|]. split; [exact Hin|].
  intros row Hrow.
  assert (Hb : In (base row) (map (filled_row sales_df purchase_df) ks)).
  { rewrite <- Hbase. apply in_map. exact Hrow. }
  apply in_map_iff in Hb as (k & Hk & _).
  assert (Hd : f_date (base row) = k) by (rewrite <- Hk; reflexivity).
  assert (Hp : profit row = (f_revenue (base row) - f_costs (base row))%Q).
  { unfold financial_df in Hdf.
    destruct (merge_frames sales_df purchase_df) as [frame|]; [|discriminate].
    injection Hdf as <-. apply (derive_profit frame row Hrow). }
  rewrite Hd. rewrite <- Hk in Hp |- *.
  split; [|split; [|split; [|split]]].
  - intros s Hs <-. apply filled_row_sales; assumption.
  - apply filled_row_no_sales.
  - intros p Hpin <-. apply filled_row_purchase; assumption.
  - apply filled_row_no_purchase.
  - exact Hp.
Qed.

Lemma C5_financial_outer_join_witness :
  exists df : list fin_row,
    financial_df [mksales (mkdate 2024 1 1) 100 90 10]
                 [mkpurchase (mkdate 2024 1 2) 40] = Some df /\
    NoDup (dates df).
Proof.
  destruct (C5_financial_outer_join [mksales (mkdate 2024 1 1) 100 90 10]
              [mkpurchase (mkdate 2024 1 2) 40])
    as [(df & Hdf & Hnd & _) _].
  - repeat constructor. intros [].
  - repeat constructor. intros [].
  - left. discriminate.
  - exists df. split; assumption.
Defined.

Lemma filter_nil_iff {A} (p : A -> bool) (l : list A) :
  filter p l = [] <-> forall a, In a l -> p a = false.
Proof.
  induction l as [|x l IH]; cbn [filter].
  - split; [intros _ a [] | reflexivity].
  - destruct (p x) eqn:E; split.
    + discriminate.
    + intros H. specialize (H x (or_introl eq_refl)). congruence.
    + intros H a [<-|Ha]; [exact E | apply IH; assumption].
    + intros H. apply IH. intros a Ha. apply H. right. exact Ha.
Qed.








(* ================================================================== *)
(** ** Further properties of the handlers *)
(* ================================================================== *)

(** *** Request windows *)

Lemma fromordinal_some (n : Z) :
  0 < n <= MAXORDINAL -> fromordinal n = Some (ord2ymd n).
Proof.
  intros [H1 H2]. unfold fromordinal.
  apply Z.ltb_lt in H1. apply Z.leb_le in H2. rewrite H1, H2. reflexivity.
Qed.

Lemma fromordinal_none (n : Z) :
  ~ 0 < n <= MAXORDINAL -> fromordinal n = None.
Proof.
  intros H. unfold fromordinal.
  destruct (Z.ltb_spec 0 n), (Z.leb_spec n MAXORDINAL); try reflexivity. lia.
Qed.

(** X1.  A request without [start_date] gets the window that ends at its
    [end_date] (today when that is missing too) and starts exactly [days]
    days earlier; when that start is before 0001-01-01 the window raises.
    A [start_date] that is given is used as it is. *)
Theorem resolve_window_default_start (days : Z) (today : date)
    (req_end : option date) :
  let end_date := match req_end with Some d => d | None => today end in
  (0 < toordinal end_date - days <= MAXORDINAL ->
     exists start_date,
       resolve_window days today None req_end = Ok (start_date, end_date) /\
       diff_days end_date start_date = days) /\
  (~ 0 < toordinal end_date - days <= MAXORDINAL ->
     resolve_window days today None req_end = Raise "date value out of range") /\
  (forall s, resolve_window days today (Some s) req_end = Ok (s, end_date)).
Proof.
  intros end_date. unfold resolve_window. fold end_date.
  unfold sub_days, add_days.
  replace (toordinal end_date + - days) with (toordinal end_date - days) by ring.
  split; [|split].
  - intros H. rewrite (fromordinal_some _ H). cbn.
    eexists. split; [reflexivity|]. unfold diff_days.
    rewrite toordinal_ord2ymd by lia. ring.
  - intros H. rewrite (fromordinal_none _ H). reflexivity.
  - reflexivity.
Qed.

Lemma resolve_window_default_start_witness :
  (exists start_date,
      resolve_window 30 (mkdate 2024 3 31) None None
      = Ok (start_date, mkdate 2024 3 31) /\
      diff_days (mkdate 2024 3 31) start_date = 30) /\
  resolve_window 90 (mkdate 2024 3 31) None (Some (mkdate 1 2 1))
  = Raise "date value out of range".
Proof.
  split.
  - apply (resolve_window_default_start 30 (mkdate 2024 3 31) None).
    vm_compute. split; [reflexivity | discriminate].
  - apply (resolve_window_default_start 90 (mkdate 2024 3 31) (Some (mkdate 1 2 1))).
    vm_compute. intros [H _]. discriminate.
Defined.

(** *** Growth without a baseline *)

Lemma prev_revenue_sql_none (table : list sale) (prev_start prev_end : date) :
  prev_revenue_sql table prev_start prev_end = None <->
  forall s, In s table -> previous_where prev_start prev_end s = false.
Proof.
  unfold prev_revenue_sql. split.
  - intros H s Hs.
    destruct (previous_where prev_start prev_end s) eqn:E; [|reflexivity].
    assert (Hin : In s (filter (previous_where prev_start prev_end) table))
      by (apply filter_In; auto).
    destruct (filter (previous_where prev_start prev_end) table);
      [destruct Hin | discriminate].
  - intros H.
    destruct (filter (previous_where prev_start prev_end) table) as [|s l] eqn:E;
      [reflexivity|].
    assert (Hin : In s (filter (previous_where prev_start prev_end) table))
      by (rewrite E; left; reflexivity).
    apply filter_In in Hin as [Hin Hp]. rewrite (H s Hin) in Hp. discriminate.
Qed.

(** X2.  The previous period's [SUM(total)] is NULL exactly when no
    completed sale lies in the comparison window, and then the growth rate
    is 0 whatever the current revenue; it is also 0 when the previous sales
    sum to 0 or less. *)
Theorem growth_rate_without_baseline (table : list sale)
    (prev_start prev_end : date) (total_revenue : Q) :
  (prev_revenue_sql table prev_start prev_end = None <->
   forall s, In s table -> previous_where prev_start prev_end s = false) /\
  ((forall s, In s table -> previous_where prev_start prev_end s = false) ->
   growth_rate total_revenue
     (prev_revenue_of (prev_revenue_sql table prev_start prev_end)) = Ok 0%Q) /\
  (forall x, (x <= 0)%Q ->
   growth_rate total_revenue (prev_revenue_of (Some x)) = Ok 0%Q).
Proof.
  split; [apply prev_revenue_sql_none|]. split.
  - intros H. apply prev_revenue_sql_none in H. rewrite H. reflexivity.
  - intros x Hx. unfold prev_revenue_of, growth_rate.
    destruct (Qeq_bool x 0); [reflexivity|].
    apply Qltb_ge in Hx. rewrite Hx. reflexivity.
Qed.

Lemma growth_rate_without_baseline_witness :
  growth_rate 500
    (prev_revenue_of
       (prev_revenue_sql [mksale (mkts (mkdate 2024 3 5) 0) 40 "COMPLETED";
                          mksale (mkts (mkdate 2024 2 5) 0) 40 "PENDING"]
          (mkdate 2024 1 31) (mkdate 2024 3 1))) = Ok 0%Q /\
  growth_rate 500 (prev_revenue_of (Some (-3)%Q)) = Ok 0%Q.
Proof.
  split.
  - apply (growth_rate_without_baseline _ (mkdate 2024 1 31) (mkdate 2024 3 1) 500).
    intros s [<-|[<-|[]]]; reflexivity.
  - apply (growth_rate_without_baseline [] (mkdate 2024 1 31) (mkdate 2024 3 1) 500).
    discriminate.
Defined.

(** *** Month and week keys *)

Lemma week_U_bounds (d : date) : valid_date d -> 0 <= week_U d <= 53.
Proof.
  intros V. pose proof (yday_bounds d V) as B.
  unfold week_U, yday0, wday_sun0.
  assert (b2z (is_leap (year d)) <= 1) by (destruct (is_leap (year d)); cbn; lia).
  Z.div_mod_to_equations. lia.
Qed.

Lemma week_U_same_year (a b : date) :
  year a = year b ->
  (week_U a = week_U b <-> toordinal a / 7 = toordinal b / 7).
Proof.
  intros Hy. unfold week_U, yday0, wday_sun0, toordinal. rewrite Hy.
  set (ma := days_before_month (year b) (month a)).
  set (mb := days_before_month (year b) (month b)).
  set (y0 := days_before_year (year b)).
  clearbody ma mb y0. split; intros H; Z.div_mod_to_equations; lia.
Qed.

Lemma strftime_Ym_inj (a b : date) :
  valid_date a -> valid_date b ->
  strftime_Ym a = strftime_Ym b -> year a = year b /\ month a = month b.
Proof.
  intros (Hy1 & Hm1 & _) (Hy2 & Hm2 & _) H.
  unfold strftime_Ym in H.
  assert (Hp : pad4 (year a) = pad4 (year b) /\ pad2 (month a) = pad2 (month b)).
  { unfold pad4, pad2 in *. cbn [append] in H.
    injection H as -> -> -> -> -> ->. split; reflexivity. }
  destruct Hp as [Py Pm].
  split; [apply pad4_inj | apply pad2_inj]; (lia || assumption).
Qed.

Lemma strftime_YWU_inj (a b : date) :
  valid_date a -> valid_date b ->
  strftime_YWU a = strftime_YWU b -> year a = year b /\ week_U a = week_U b.
Proof.
  intros Va Vb H.
  pose proof (week_U_bounds a Va). pose proof (week_U_bounds b Vb).
  destruct Va as (Hy1 & _), Vb as (Hy2 & _).
  unfold strftime_YWU in H.
  assert (Hp : pad4 (year a) = pad4 (year b) /\ pad2 (week_U a) = pad2 (week_U b)).
  { unfold pad4, pad2 in *. cbn [append] in H.
    injection H as -> -> -> -> -> ->. split; reflexivity. }
  destruct Hp as [Py Pw].
  split; [apply pad4_inj | apply pad2_inj]; (lia || assumption).
Qed.

(** X3.  At month granularity two sale dates get the same period key
    exactly when they have the same year and month. *)
Theorem month_period_key (a b : date) :
  valid_date a -> valid_date b ->
  (period "month" a = period "month" b <-> year a = year b /\ month a = month b).
Proof.
  intros Va Vb. change (period "month" a) with (strftime_Ym a).
  change (period "month" b) with (strftime_Ym b). split.
  - apply strftime_Ym_inj; assumption.
  - intros [Hy Hm]. unfold strftime_Ym. rewrite Hy, Hm. reflexivity.
Qed.

Lemma month_period_key_witness :
  period "month" (mkdate 2024 2 1) = period "month" (mkdate 2024 2 29).
Proof.
  apply (month_period_key (mkdate 2024 2 1) (mkdate 2024 2 29)).
  - cbv. intuition discriminate.
  - cbv. intuition discriminate.
  - split; reflexivity.
Defined.

(** X4.  At week granularity two sale dates get the same period key exactly
    when they are in the same year and in the same Sunday-to-Saturday week
    of the calendar; the week number printed is between 0 and 53.  A week
    that spans New Year is split into two keys. *)
Theorem week_period_key (a b : date) :
  valid_date a -> valid_date b ->
  (period "week" a = period "week" b <->
   year a = year b /\ toordinal a / 7 = toordinal b / 7) /\
  0 <= week_U a <= 53.
Proof.
  intros Va Vb. split; [|apply week_U_bounds; exact Va].
  change (period "week" a) with (strftime_YWU a).
  change (period "week" b) with (strftime_YWU b). split.
  - intros H. apply strftime_YWU_inj in H as [Hy Hw]; try assumption.
    split; [exact Hy|]. apply week_U_same_year; assumption.
  - intros [Hy Ho]. apply (week_U_same_year a b Hy) in Ho.
    unfold strftime_YWU. rewrite Hy, Ho. reflexivity.
Qed.

Lemma week_period_key_witness :
  period "week" (mkdate 2024 3 3) = period "week" (mkdate 2024 3 9) /\
  period "week" (mkdate 2024 12 31) <> period "week" (mkdate 2025 1 1).
Proof.
  split.
  - apply (week_period_key (mkdate 2024 3 3) (mkdate 2024 3 9)).
    + cbv. intuition discriminate.
    + cbv. intuition discriminate.
    + split; reflexivity.
  - intros H.
    apply (week_period_key (mkdate 2024 12 31) (mkdate 2025 1 1)) in H.
    + destruct H as [H _]. discriminate.
    + cbv. intuition discriminate.
    + cbv. intuition discriminate.
Defined.

(** *** Grouping *)

Lemma string_compare_refl (a : string) : String.compare a a = Eq.
Proof.
  pose proof (String.compare_antisym a a) as H.
  destruct (String.compare a a); try reflexivity; discriminate.
Qed.

Lemma string_compare_gt_lt (a b : string) :
  String.compare a b = Gt -> String.compare b a = Lt.
Proof.
  intros H. rewrite String.compare_antisym, H. reflexivity.
Qed.

Lemma ascii_compare_lt_trans (x y z : ascii) :
  Ascii.compare x y = Lt -> Ascii.compare y z = Lt -> Ascii.compare x z = Lt.
Proof.
  unfold Ascii.compare. rewrite !N.compare_lt_iff. apply N.lt_trans.
Qed.

Lemma slt_trans (a b c : string) : slt a b -> slt b c -> slt a c.
Proof.
  unfold slt. revert b c.
  induction a as [|x a IH]; intros [|y b] [|z c]; cbn; try discriminate; auto.
  destruct (Ascii.compare x y) eqn:Exy; try discriminate;
    destruct (Ascii.compare y z) eqn:Eyz; try discriminate; intros H1 H2.
  - apply Ascii.compare_eq_iff in Exy, Eyz. subst.
    change (Ascii.compare z z) with (N.compare (N_of_ascii z) (N_of_ascii z)).
    rewrite N.compare_refl. eapply IH; eassumption.
  - apply Ascii.compare_eq_iff in Exy. subst. rewrite Eyz. reflexivity.
  - apply Ascii.compare_eq_iff in Eyz. subst. rewrite Exy. reflexivity.
  - rewrite (ascii_compare_lt_trans x y z Exy Eyz). reflexivity.
Qed.

Lemma slt_irrefl (a : string) : ~ slt a a.
Proof. unfold slt. rewrite string_compare_refl. discriminate. Qed.

Section GroupByFacts.
Context {A : Type} (key : A -> option string).

Let step (gs : list (string * list A)) (a : A) : list (string * list A) :=
  match key a with
  | Some k => group_insert k a gs
  | None => gs
  end.

Lemma group_insert_keys (k x : string) (a : A) (gs : list (string * list A)) :
  In x (map fst (group_insert k a gs)) -> x = k \/ In x (map fst gs).
Proof.
  induction gs as [|[k' g] gs IH]; cbn [group_insert].
  - cbn. intuition congruence.
  - destruct (String.compare k k'); cbn [map fst In]; intros H.
    + intuition congruence.
    + intuition congruence.
    + destruct H as [H|H]; [tauto|]. apply IH in H. tauto.
Qed.

Lemma group_insert_member (k k0 : string) (a : A) (g : list A)
    (gs : list (string * list A)) :
  In (k, g) (group_insert k0 a gs) ->
  In (k, g) gs \/ exists g0, g = g0 ++ [a].
Proof.
  induction gs as [|[k' g'] gs IH]; cbn [group_insert].
  - intros [[= <- <-]|[]]. right. exists []. reflexivity.
  - destruct (String.compare k0 k'); cbn [In]; intros H.
    + destruct H as [[= <- <-]|H]; [right; eauto | tauto].
    + destruct H as [[= <- <-]|H]; [right; exists []; reflexivity | tauto].
    + destruct H as [H|H]; [tauto|]. apply IH in H. tauto.
Qed.

Lemma group_insert_sorted (k : string) (a : A) (gs : list (string * list A)) :
  StronglySorted slt (map fst gs) ->
  StronglySorted slt (map fst (group_insert k a gs)).
Proof.
  induction gs as [|[k' g] gs IH]; cbn [group_insert]; intros Hs.
  - cbn. constructor; constructor.
  - cbn [map fst] in Hs. apply StronglySorted_inv in Hs as Hinv.
    destruct Hinv as [Hs' Hall].
    destruct (String.compare k k') eqn:E; cbn [map fst].
    + exact Hs.
    + constructor; [exact Hs|]. constructor; [exact E|].
      eapply Forall_impl; [|exact Hall]. intros x Hx. exact (slt_trans _ _ _ E Hx).
    + constructor; [apply IH; exact Hs'|].
      apply Forall_forall. intros x Hx. apply group_insert_keys in Hx as [->|Hx].
      * apply string_compare_gt_lt. exact E.
      * rewrite Forall_forall in Hall. apply Hall. exact Hx.
Qed.

Lemma group_of_absent (k : string) (gs : list (string * list A)) :
  Forall (slt k) (map fst gs) -> group_of k gs = [].
Proof.
  unfold group_of. induction gs as [|[k' g] gs IH]; cbn [map fst find]; intros H.
  - reflexivity.
  - apply Forall_cons_iff in H as [H1 H2].
    destruct (String.eqb_spec k' k) as [->|Hne].
    + exfalso. exact (slt_irrefl k H1).
    + apply IH. exact H2.
Qed.

Lemma group_of_insert (k k0 : string) (a : A) (gs : list (string * list A)) :
  StronglySorted slt (map fst gs) ->
  group_of k (group_insert k0 a gs)
  = if String.eqb k0 k then group_of k gs ++ [a] else group_of k gs.
Proof.
  induction gs as [|[k' g] gs IH]; cbn [group_insert]; intros Hs.
  - unfold group_of. cbn. destruct (String.eqb k0 k); reflexivity.
  - cbn [map fst] in Hs. apply StronglySorted_inv in Hs as [Hs' Hall].
    destruct (String.compare k0 k') eqn:E.
    + apply String.compare_eq_iff in E. subst k'.
      unfold group_of. cbn [find fst snd].
      destruct (String.eqb k0 k); reflexivity.
    + destruct (String.eqb_spec k0 k) as [->|Hne].
      * assert (Habs : group_of k ((k', g) :: gs) = []).
        { apply group_of_absent. cbn [map fst]. constructor; [exact E|].
          eapply Forall_impl; [|exact Hall].
          intros x Hx. exact (slt_trans _ _ _ E Hx). }
        rewrite Habs. unfold group_of. cbn [find fst snd].
        rewrite String.eqb_refl. reflexivity.
      * unfold group_of at 1. cbn [find fst].
        apply String.eqb_neq in Hne. rewrite Hne. reflexivity.
    + specialize (IH Hs'). unfold group_of in *. cbn [find fst snd].
      destruct (String.eqb_spec k' k) as [->|Hne].
      * destruct (String.eqb_spec k0 k) as [->|Hne0]; [|reflexivity].
        rewrite string_compare_refl in E. discriminate.
      * exact IH.
Qed.

Lemma group_of_member (k : string) (g : list A) (gs : list (string * list A)) :
  StronglySorted slt (map fst gs) -> In (k, g) gs -> group_of k gs = g.
Proof.
  induction gs as [|[k' g'] gs IH]; intros Hs Hin; [destruct Hin|].
  cbn [map fst] in Hs. apply StronglySorted_inv in Hs as [Hs' Hall].
  unfold group_of. cbn [find fst snd]. destruct Hin as [[= -> ->]|Hin].
  - rewrite String.eqb_refl. reflexivity.
  - destruct (String.eqb_spec k' k) as [->|Hne].
    + exfalso. rewrite Forall_forall in Hall.
      apply (slt_irrefl k), Hall, in_map_iff. exists (k, g). auto.
    + apply IH; assumption.
Qed.

Lemma group_of_nonempty (k : string) (gs : list (string * list A)) :
  group_of k gs <> [] -> exists g, In (k, g) gs.
Proof.
  unfold group_of.
  destruct (find (fun kg => String.eqb (fst kg) k) gs) as [[k' g]|] eqn:E;
    [|intros H; contradiction H; reflexivity].
  intros _. apply find_some in E as [Hin Hk]. apply String.eqb_eq in Hk.
  cbn in Hk. subst. eauto.
Qed.

Lemma fold_step_invariant (rows pre : list A) (gs : list (string * list A)) :
  StronglySorted slt (map fst gs) ->
  (forall k, group_of k gs = filter (has_key key k) pre) ->
  (forall k g, In (k, g) gs -> g <> []) ->
  let gs' := fold_left step rows gs in
  StronglySorted slt (map fst gs') /\
  (forall k, group_of k gs' = filter (has_key key k) (pre ++ rows)) /\
  (forall k g, In (k, g) gs' -> g <> []).
Proof.
  revert pre gs. induction rows as [|a rows IH]; intros pre gs Hs Hg Hne.
  - cbn. rewrite app_nil_r. auto.
  - cbn [fold_left].
    replace (pre ++ a :: rows) with ((pre ++ [a]) ++ rows)
      by (rewrite <- app_assoc; reflexivity).
    apply IH.
    + unfold step. destruct (key a); [apply group_insert_sorted|]; exact Hs.
    + intros k. rewrite filter_app. cbn [filter]. unfold has_key at 2, step.
      destruct (key a) as [k0|].
      * rewrite group_of_insert by exact Hs. rewrite Hg.
        destruct (String.eqb k0 k); [reflexivity | rewrite app_nil_r; reflexivity].
      * rewrite app_nil_r. apply Hg.
    + intros k g Hin. unfold step in Hin. destruct (key a) as [k0|]; [|eauto].
      apply group_insert_member in Hin as [Hin|[g0 ->]]; [eauto|].
      destruct g0; discriminate.
Qed.

Lemma groupby_groups (rows : list A) :
  StronglySorted slt (map fst (groupby key rows)) /\
  (forall k, group_of k (groupby key rows) = filter (has_key key k) rows) /\
  (forall k g, In (k, g) (groupby key rows) -> g <> []).
Proof.
  apply (fold_step_invariant rows [] []).
  - constructor.
  - reflexivity.
  - intros k g [].
Qed.

Lemma groupby_entry (rows : list A) (k : string) (g : list A) :
  In (k, g) (groupby key rows) -> g = filter (has_key key k) rows /\ g <> [].
Proof.
  intros Hin. destruct (groupby_groups rows) as (Hs & Hg & Hne).
  split; [|exact (Hne k g Hin)].
  rewrite <- Hg. symmetry. apply group_of_member; assumption.
Qed.

Lemma groupby_covers (rows : list A) (a : A) (k : string) :
  In a rows -> key a = Some k -> exists g, In (k, g) (groupby key rows).
Proof.
  intros Hin Hk. destruct (groupby_groups rows) as (_ & Hg & _).
  apply group_of_nonempty. rewrite Hg.
  assert (Hf : In a (filter (has_key key k) rows)).
  { apply filter_In. split; [exact Hin|]. unfold has_key. rewrite Hk.
    apply String.eqb_refl. }
  intros E. rewrite E in Hf. destruct Hf.
Qed.

Lemma group_insert_perm (k : string) (a : A) (gs : list (string * list A)) :
  Permutation (flat_map snd (group_insert k a gs)) (a :: flat_map snd gs).
Proof.
  induction gs as [|[k' g] gs IH]; cbn [group_insert].
  - reflexivity.
  - destruct (String.compare k k'); cbn [flat_map snd].
    + rewrite <- app_assoc. cbn [app].
      apply Permutation_sym, Permutation_middle.
    + reflexivity.
    + rewrite IH. apply Permutation_sym, Permutation_middle.
Qed.

Lemma fold_step_perm (rows : list A) (gs : list (string * list A)) :
  Permutation (flat_map snd (fold_left step rows gs))
    (flat_map snd gs
     ++ filter (fun a => match key a with Some _ => true | None => false end) rows).
Proof.
  revert gs. induction rows as [|a rows IH]; intros gs; cbn [fold_left filter].
  - rewrite app_nil_r. reflexivity.
  - rewrite IH. unfold step. destruct (key a) as [k|]; [|reflexivity].
    rewrite group_insert_perm. cbn [app]. apply Permutation_middle.
Qed.

Lemma groupby_perm (rows : list A) :
  Permutation (flat_map snd (groupby key rows))
    (filter (fun a => match key a with Some _ => true | None => false end) rows).
Proof. apply (fold_step_perm rows []). Qed.
End GroupByFacts.



Lemma Zsum_app (l1 l2 : list Z) : Zsum (l1 ++ l2) = Zsum l1 + Zsum l2.
Proof.
  unfold Zsum. induction l1 as [|x l1 IH]; cbn [app fold_right]; lia.
Qed.

Lemma Zsum_perm (l1 l2 : list Z) : Permutation l1 l2 -> Zsum l1 = Zsum l2.
Proof.
  unfold Zsum.
  induction 1 as [|x l1 l2 _ IH|x y l|l1 l2 l3 _ IH1 _ IH2]; cbn [fold_right];
    lia.
Qed.


Lemma Zsum_groups {A} (f : A -> Z) (gs : list (string * list A)) :
  Zsum (map (fun kg => Zsum (map f (snd kg))) gs)
  = Zsum (map f (flat_map snd gs)).
Proof.
  induction gs as [|[k g] gs IH]; cbn [map flat_map snd].
  - reflexivity.
  - rewrite map_app, Zsum_app, <- IH. reflexivity.
Qed.


(** X5.  The rows of [period_stats] come in strictly ascending order of
    period key, one per period that occurs in the frame; each carries the
    sums of revenue, transaction count and customer count over exactly the
    rows of the frame whose sale date falls in its period. *)
Theorem period_stats_by_period (group_by : string) (df : list sales_row) :
  let rows_of k :=
    filter (fun r => String.eqb (period group_by (sale_date r)) k) df in
  StronglySorted slt (map ps_period (period_stats group_by df)) /\
  (forall st, In st (period_stats group_by df) ->
     rows_of (ps_period st) <> [] /\
     ps_total_revenue st = Qsum (map total_revenue (rows_of (ps_period st))) /\
     ps_transaction_count st
     = Zsum (map transaction_count (rows_of (ps_period st))) /\
     ps_unique_customers st
     = Zsum (map unique_customers (rows_of (ps_period st)))) /\
  (forall r, In r df ->
     In (period group_by (sale_date r)) (map ps_period (period_stats group_by df))).
Proof.
  intros rows_of. unfold period_stats.
  set (key := fun r : sales_row => Some (period group_by (sale_date r))).
  assert (Hrows : forall k, filter (has_key key k) df = rows_of k) by reflexivity.
  assert (Hkeys : forall gs : list (string * list sales_row),
            map ps_period
              (map (fun '(k, g) =>
                      mkstat k (Qsum (map total_revenue g))
                        (Zsum (map transaction_count g))
                        (Zsum (map unique_customers g))) gs)
            = map fst gs).
  { intros gs. rewrite map_map. apply map_ext. intros [k g]. reflexivity. }
  split; [|split].
  - rewrite Hkeys. apply groupby_groups.
  - intros st Hst. apply in_map_iff in Hst as ([k g] & <- & Hin).
    apply groupby_entry in Hin as [Hg Hne]. rewrite Hrows in Hg.
    cbn [ps_period ps_total_revenue ps_transaction_count ps_unique_customers].
    rewrite <- Hg. auto.
  - intros r Hr. rewrite Hkeys.
    destruct (groupby_covers key df r _ Hr eq_refl) as [g Hg].
    apply in_map_iff. exists (period group_by (sale_date r), g). auto.
Qed.


(** *** Descending order on a rational column *)

Lemma firstn_sorted {A} (R : A -> A -> Prop) (n : nat) (l : list A) :
  StronglySorted R l -> StronglySorted R (firstn n l).
Proof.
  revert n. induction l as [|a l IH]; intros n Hs.
  - rewrite firstn_nil. constructor.
  - destruct n as [|n]; [constructor|]. cbn [firstn].
    apply StronglySorted_inv in Hs as [Hs Hall].
    constructor; [apply IH; exact Hs|].
    rewrite Forall_forall in *. intros x Hx. apply Hall.
    rewrite <- (firstn_skipn n l). apply in_or_app. left. exact Hx.
Qed.

Lemma firstn_skipn_sorted {A} (R : A -> A -> Prop) (n : nat) (l : list A) :
  StronglySorted R l ->
  forall a b, In a (firstn n l) -> In b (skipn n l) -> R a b.
Proof.
  revert n. induction l as [|x l IH]; intros n Hs a b Ha Hb.
  - rewrite firstn_nil in Ha. destruct Ha.
  - destruct n as [|n]; [destruct Ha|]. cbn [firstn skipn] in Ha, Hb.
    apply StronglySorted_inv in Hs as [Hs Hall].
    destruct Ha as [<-|Ha].
    + rewrite Forall_forall in Hall. apply Hall.
      rewrite <- (firstn_skipn n l). apply in_or_app. right. exact Hb.
    + exact (IH n Hs a b Ha Hb).
Qed.

Section SortDescQ.
Context {A : Type} (keyq : A -> Q).

Let ltq (a b : A) : bool := Qltb (keyq a) (keyq b).
Let geq (a b : A) : Prop := (keyq b <= keyq a)%Q.

Lemma insert_desc_In (x y : A) (s : list A) :
  In y (insert_desc ltq x s) <-> y = x \/ In y s.
Proof.
  induction s as [|z s IH]; cbn [insert_desc].
  - cbn. intuition congruence.
  - destruct (ltq x z); cbn [In]; [rewrite IH|]; intuition congruence.
Qed.

Lemma sort_desc_In (y : A) (l : list A) : In y (sort_desc ltq l) <-> In y l.
Proof.
  induction l as [|x l IH]; cbn [sort_desc fold_right]; [reflexivity|].
  fold (sort_desc ltq l). rewrite insert_desc_In, IH. cbn. intuition congruence.
Qed.

Lemma insert_desc_sorted_Q (x : A) (s : list A) :
  StronglySorted geq s -> StronglySorted geq (insert_desc ltq x s).
Proof.
  induction s as [|y s IH]; intros Hs; cbn [insert_desc].
  - constructor; constructor.
  - apply StronglySorted_inv in Hs as [Hs Hy].
    destruct (ltq x y) eqn:E; unfold ltq in E.
    + apply Qltb_lt in E. constructor; [apply IH; exact Hs|].
      apply Forall_forall. intros z Hz. apply insert_desc_In in Hz as [->|Hz].
      * unfold geq. apply Qlt_le_weak. exact E.
      * rewrite Forall_forall in Hy. apply Hy. exact Hz.
    + apply Qltb_ge in E. constructor.
      * constructor; assumption.
      * constructor; [exact E|].
        eapply Forall_impl; [|exact Hy]. unfold geq. intros a Ha.
        exact (Qle_trans _ _ _ Ha E).
Qed.

Lemma sort_desc_sorted_Q (l : list A) : StronglySorted geq (sort_desc ltq l).
Proof.
  induction l as [|x l IH]; cbn [sort_desc fold_right]; [constructor|].
  apply insert_desc_sorted_Q. exact IH.
Qed.
End SortDescQ.

(** X7.  The top performers are at most ten, in descending order of summed
    revenue; each entry is the summed revenue and transaction count of the
    rows of one salesperson, and rows without a salesperson count for
    nobody. *)
Theorem top_performers_ranked (df : list sales_row) :
  (List.length (top_performers df) <= 10)%nat /\
  StronglySorted (fun a b => (fst b <= fst a)%Q) (top_performers df) /\
  forall e, In e (top_performers df) ->
    exists who : string,
      let rows :=
        filter (fun r => match salesperson r with
                         | Some n => String.eqb n who
                         | None => false
                         end) df in
      rows <> [] /\
      e = (Qsum (map total_revenue rows), Zsum (map transaction_count rows)).
Proof.
  unfold top_performers. split; [apply firstn_le_length|]. split.
  - apply firstn_sorted. apply (sort_desc_sorted_Q fst).
  - intros e He.
    assert (Hin : In e (sort_desc (fun a b : Q * Z => Qltb (fst a) (fst b))
                    (map (fun '(_, g) =>
                            (Qsum (map total_revenue g),
                             Zsum (map transaction_count g)))
                         (groupby salesperson df)))).
    { rewrite <- (firstn_skipn 10). apply in_or_app. left. exact He. }
    apply (proj1 (sort_desc_In fst _ _)) in Hin.
    apply in_map_iff in Hin as ([k g] & <- & Hg).
    apply groupby_entry in Hg as [Hg Hne]. exists k. cbn zeta.
    change (filter _ df) with (filter (has_key salesperson k) df).
    rewrite <- Hg. auto.
Qed.

(** *** Answers and failures of the sales handler *)

Lemma previous_period_raise (start_date end_date : date) :
  ~ 0 < 2 * toordinal start_date - toordinal end_date <= MAXORDINAL ->
  previous_period start_date end_date = Raise "date value out of range".
Proof.
  intros H. unfold previous_period, sub_days, add_days, diff_days.
  rewrite fromordinal_none by lia. reflexivity.
Qed.

(** X8.  With a window that resolves and rows fetched for it, the sales
    handler answers 500 with the message of the date overflow whenever the
    start of the comparison window, [start_date - (end_date - start_date)],
    is not a representable date: data in the window does not protect from
    that failure. *)
Theorem sales_analytics_outcome (src : Sales.row_source) (today : date)
    (req : request) (start_date end_date : date) :
  resolve_window 30 today (req_start_date req) (req_end_date req)
  = Ok (start_date, end_date) ->
  Sales.fetch_sales src start_date end_date <> [] ->
  ~ 0 < 2 * toordinal start_date - toordinal end_date <= MAXORDINAL ->
  sales_analytics src today req
  = Response500 "Analytics generation failed: date value out of range".
Proof.
  intros Hw Hne H. unfold sales_analytics, sales_analytics_body.
  rewrite Hw. cbn [bind].
  destruct (Sales.fetch_sales src start_date end_date) as [|r df] eqn:Edf;
    [contradiction Hne; reflexivity|].
  rewrite (previous_period_raise _ _ H). reflexivity.
Qed.

Lemma sales_analytics_outcome_witness :
  let row := mkrow (mkdate 1 1 20) 1 10 9 1 10 1 None (Some "cash"%string) in
  sales_analytics (Sales.mksource [] (fun _ _ => [row])) (mkdate 2024 1 1)
    (mkrequest (Some (mkdate 1 1 10)) (Some (mkdate 1 1 31)) "day")
  = Response500 "Analytics generation failed: date value out of range".
Proof.
  intros row.
  apply (sales_analytics_outcome _ _ _ (mkdate 1 1 10) (mkdate 1 1 31)).
  - reflexivity.
  - discriminate.
  - vm_compute. intros [H _]. discriminate.
Defined.

(** *** Inventory counts and values *)

Lemma Zlen_zero_iff {A} (l : list A) : Zlen l = 0 <-> l = [].
Proof.
  unfold Zlen. destruct l; cbn [List.length]; split; intros H;
    try reflexivity; try discriminate; lia.
Qed.

(** X9.  The three counts of the status chart always add up to the number
    of products.  The Normal count is the number of products that are
    neither low nor out of stock less the number that are both, so it is
    that number exactly when no product at zero stock has a minimum of zero
    or more. *)
Theorem alert_counts_overlap (df : list stock_row) :
  Zlen (low_stock_items df) + Zlen (out_of_stock_items df) + normal_count df
  = Zlen df /\
  normal_count df
  = Zlen (normal_items df)
    - Zlen (filter (fun r => is_low r && is_out r) df) /\
  (normal_count df = Zlen (normal_items df) <->
   forall r, In r df -> ~ (current_stock r = 0 /\ 0 <= min_stock r)).
Proof.
  split; [unfold normal_count; lia|].
  split; [apply normal_count_double_subtracts|].
  rewrite normal_count_double_subtracts.
  assert (H : Zlen (normal_items df)
              - Zlen (filter (fun r => is_low r && is_out r) df)
              = Zlen (normal_items df)
              <-> filter (fun r => is_low r && is_out r) df = [])
    by (rewrite <- Zlen_zero_iff; lia).
  rewrite H, filter_nil_iff. unfold is_low, is_out.
  split; intros Hall r Hr; specialize (Hall r Hr).
  - intros [Hz Hm]. rewrite Hz in Hall.
    apply andb_false_iff in Hall as [Hall|Hall].
    + apply Z.leb_gt in Hall. lia.
    + discriminate.
  - destruct (Z.eqb_spec (current_stock r) 0) as [Hz|Hz];
      [|apply andb_false_r].
    rewrite Hz. apply andb_false_iff. left. apply Z.leb_gt. lia.
Qed.

Lemma Qmean_inject_Z (l : list Z) :
  (Qmean (map inject_Z l) == inject_Z (Zsum l) / inject_Z (Zlen l))%Q.
Proof.
  unfold Qmean. rewrite Qsum_inject_Z. unfold Zlen. rewrite length_map.
  reflexivity.
Qed.






(** X11.  The inventory value is 0 when every product is at zero stock and
    is never negative when no stock level and no unit cost is negative. *)
Theorem total_inventory_value_sign (df : list stock_row) :
  ((forall r, In r df -> current_stock r = 0) ->
   (total_inventory_value df == 0)%Q) /\
  ((forall r, In r df -> 0 <= current_stock r /\ (0 <= cost r)%Q) ->
   (0 <= total_inventory_value df)%Q).
Proof.
  unfold total_inventory_value, Qsum. split; intros Hall.
  - induction df as [|r df IH]; cbn [map fold_right]; [reflexivity|].
    rewrite IH by (intros a Ha; apply Hall; right; exact Ha).
    rewrite (Hall r (or_introl eq_refl)). ring.
  - induction df as [|r df IH]; cbn [map fold_right]; [discriminate|].
    destruct (Hall r (or_introl eq_refl)) as [Hs Hc].
    assert (H1 : (0 <= inject_Z (current_stock r) * cost r)%Q).
    { apply Qmult_le_0_compat; [|exact Hc].
      unfold Qle, inject_Z. cbn. lia. }
    assert (H2 := IH (fun a Ha => Hall a (or_intror Ha))).
    replace 0%Q with (0 + 0)%Q by reflexivity. apply Qplus_le_compat; assumption.
Qed.

Lemma total_inventory_value_sign_witness :
  (total_inventory_value [product 1 0 5; product 2 0 0] == 0)%Q /\
  (0 <= total_inventory_value ten_products)%Q.
Proof.
  split.
  - apply (total_inventory_value_sign [product 1 0 5; product 2 0 0]).
    intros r [<-|[<-|[]]]; reflexivity.
  - apply (total_inventory_value_sign ten_products).
    intros r Hr. cbn in Hr.
    repeat (destruct Hr as [<-|Hr]; [split; [cbn; lia | discriminate]|]).
    destruct Hr.
Defined.

(** X12.  The top-selling list has ten entries, or as many as there are
    products when they are fewer, and no product left out of it sold more
    than a product in it. *)
Theorem top_selling_cutoff (df : list stock_row) :
  List.length (top_selling_products df) = Nat.min 10 (List.length df) /\
  exists sorted : list stock_row,
    Permutation sorted df /\
    top_selling_products df
    = map (fun r => (name r, total_sold r)) (firstn 10 sorted) /\
    forall a b, In a (firstn 10 sorted) -> In b (skipn 10 sorted) ->
                total_sold b <= total_sold a.
Proof.
  pose proof (sort_desc_perm total_sold df) as Hp. split.
  - unfold top_selling_products, nlargest.
    rewrite length_map, length_firstn, (Permutation_length Hp). reflexivity.
  - exists (sort_desc (fun a b => total_sold a <? total_sold b) df).
    split; [exact Hp|]. split; [reflexivity|].
    apply (firstn_skipn_sorted (fun a b => total_sold b <= total_sold a)).
    apply (sort_desc_sorted total_sold).
Qed.

(** X13.  The category pie has one unnamed trace whose slices are in
    strictly ascending order of category name, one slice per category that
    a product has, each worth the summed stock of the products of that
    category; a product without a category is in no slice, so the slices
    add up to the stock of the products that have one. *)
Theorem category_chart_slices (df : list stock_row) :
  exists slices : list (string * Q),
    fig_traces (category_chart df) = [(""%string, slices)] /\
    StronglySorted slt (map fst slices) /\
    (forall k v, In (k, v) slices ->
       let rows :=
         filter (fun r => match category_name r with
                          | Some c => String.eqb c k
                          | None => false
                          end) df in
       rows <> [] /\ v = inject_Z (Zsum (map current_stock rows))) /\
    (forall r k, In r df -> category_name r = Some k -> In k (map fst slices)) /\
    (Qsum (map snd slices)
     == inject_Z (Zsum (map current_stock
          (filter (fun r => match category_name r with
                            | Some _ => true
                            | None => false
                            end) df))))%Q.
Proof.
  eexists. split; [reflexivity|].
  assert (Hkeys : forall gs : list (string * list stock_row),
            map fst (map (fun '(k, g) =>
                            (k, inject_Z (Zsum (map current_stock g)))) gs)
            = map fst gs).
  { intros gs. rewrite map_map. apply map_ext. intros [k g]. reflexivity. }
  split; [|split; [|split]].
  - rewrite Hkeys. apply groupby_groups.
  - intros k v Hin. apply in_map_iff in Hin as ([k' g] & [= <- <-] & Hg).
    apply groupby_entry in Hg as [Hg Hne]. cbn zeta.
    change (filter _ df) with (filter (has_key category_name k') df).
    rewrite <- Hg. auto.
  - intros r k Hr Hk. rewrite Hkeys.
    destruct (groupby_covers category_name df r k Hr Hk) as [g Hg].
    apply in_map_iff. exists (k, g). auto.
  - rewrite map_map.
    rewrite (map_ext _ (fun kg => inject_Z (Zsum (map current_stock (snd kg)))))
      by (intros [k g]; reflexivity).
    rewrite <- (map_map (fun kg => Zsum (map current_stock (snd kg))) inject_Z).
    rewrite Qsum_inject_Z, Zsum_groups.
    rewrite (Zsum_perm _ _ (Permutation_map current_stock
                              (groupby_perm category_name df))).
    reflexivity.
Qed.

(** *** Financial totals and the running sum *)


Section SumOverKeys.
Context {A : Type} (key : A -> date) (val : A -> Q).

End SumOverKeys.



Lemma Qsum_firstn_S (l : list Q) (i : nat) :
  (i < List.length l)%nat ->
  (Qsum (firstn (S i) l) == Qsum (firstn i l) + nth i l 0)%Q.
Proof.
  unfold Qsum. revert i. induction l as [|x l IH]; intros i Hi; [inversion Hi|].
  destruct i as [|i]; [cbn; ring|].
  change (firstn (S (S i)) (x :: l)) with (x :: firstn (S i) l).
  change (firstn (S i) (x :: l)) with (x :: firstn i l).
  cbn [nth fold_right]. rewrite IH by (cbn in Hi; lia). ring.
Qed.





(** X15.  The cash flow is a running sum that can be undone: on the first
    row it is the profit, and on every later row it is the cash flow of the
    row before plus the profit of the row. *)
Theorem cash_flow_recurrence (sales_df : list sales_day)
    (purchase_df : list purchase_day) (df : list fin_row) :
  financial_df sales_df purchase_df = Some df ->
  (df <> [] -> nth 0 (map cash_flow df) 0%Q = nth 0 (map profit df) 0%Q) /\
  forall i : nat, (S i < List.length df)%nat ->
    (nth (S i) (map cash_flow df) 0
     == nth i (map cash_flow df) 0 + nth (S i) (map profit df) 0)%Q.
Proof.
  intros Hdf. unfold financial_df in Hdf.
  destruct (merge_frames sales_df purchase_df) as [frame|]; [|discriminate].
  injection Hdf as <-.
  destruct (derive_columns frame) as (_ & Hp & Hc).
  rewrite Hc, <- Hp. set (ps := map profit (derive frame)).
  assert (Hlen : List.length ps = List.length (derive frame))
    by apply length_map.
  split.
  - intros _. destruct ps; reflexivity.
  - intros i Hi. rewrite !cumsum_nth by lia.
    apply Qsum_firstn_S. lia.
Qed.

Lemma cash_flow_recurrence_witness :
  let df := [mkfin (mkframe (mkdate 2024 1 1) 100 90 10 0) 100 100;
             mkfin (mkframe (mkdate 2024 1 2) 0 0 0 40) (-40) 60] in
  (nth 1 (map cash_flow df) 0
   == nth 0 (map cash_flow df) 0 + nth 1 (map profit df) 0)%Q.
Proof.
  intros df.
  apply (cash_flow_recurrence [mksales (mkdate 2024 1 1) 100 90 10]
           [mkpurchase (mkdate 2024 1 2) 40] df eq_refl).
  cbn. lia.
Defined.

(** X16.  The profit margin is 0 when the total revenue is 0 or less, and
    otherwise the gross profit over the revenue, in percent; it never
    raises.  With costs that are not negative it is at most 100, and exactly
    100 when there are no costs. *)
Theorem profit_margin_bounds (total_revenue total_costs : Q) :
  ((total_revenue <= 0)%Q ->
   profit_margin (total_revenue - total_costs) total_revenue = Ok 0%Q) /\
  ((0 < total_revenue)%Q ->
   profit_margin (total_revenue - total_costs) total_revenue
   = Ok ((total_revenue - total_costs) / total_revenue * 100)%Q) /\
  ((0 < total_revenue)%Q -> (0 <= total_costs)%Q ->
   ((total_revenue - total_costs) / total_revenue * 100 <= 100)%Q) /\
  ((0 < total_revenue)%Q -> (total_costs == 0)%Q ->
   ((total_revenue - total_costs) / total_revenue * 100 == 100)%Q).
Proof.
  split; [|split; [|split]].
  - intros H. unfold profit_margin. apply Qltb_ge in H. rewrite H. reflexivity.
  - intros H. unfold profit_margin. apply Qltb_lt in H as Hb. rewrite Hb.
    rewrite checked_div_pos by exact H. reflexivity.
  - intros Hr Hc.
    assert (H1 : ((total_revenue - total_costs) / total_revenue <= 1)%Q).
    { apply Qle_shift_div_r; [exact Hr|]. rewrite Qmult_1_l.
      rewrite <- (Qplus_0_r total_revenue) at 2.
      unfold Qminus. apply Qplus_le_compat; [apply Qle_refl|].
      rewrite <- (Qopp_involutive 0). apply Qopp_le_compat. exact Hc. }
    replace 100%Q with (1 * 100)%Q at 2 by reflexivity.
    apply Qmult_le_compat_r; [exact H1 | discriminate].
  - intros Hr Hc. rewrite Hc. field.
    intros E. rewrite E in Hr. exact (Qlt_irrefl _ Hr).
Qed.

Lemma profit_margin_bounds_witness :
  profit_margin (0 - 40) 0 = Ok 0%Q /\
  ((100 - 40) / 100 * 100 <= 100)%Q.
Proof.
  split.
  - apply (proj1 (profit_margin_bounds 0 40)). apply Qle_refl.
  - apply (proj1 (proj2 (proj2 (profit_margin_bounds 100 40))));
      [reflexivity | unfold Qle; cbn; lia].
Defined.

(** *** Edges of the sales windows *)

(** X17.  The window of the sales query is closed at the midnight that
    starts [end_date]: a completed sale is selected when its day is on or
    after [start_date] and before [end_date], or when it was made at the
    very first second of [end_date]; any later sale of [end_date] is left
    out. *)
Theorem current_window_end_day (start_date end_date : date) (s : sale) :
  0 <= ts_second (created_at s) < 86400 ->
  completed s = true ->
  (current_where start_date end_date s = true <->
   toordinal start_date <= toordinal (DATE (created_at s)) /\
   (toordinal (DATE (created_at s)) < toordinal end_date \/
    (toordinal (DATE (created_at s)) = toordinal end_date /\
     ts_second (created_at s) = 0))).
Proof.
  intros Ht Hc. unfold current_where, midnight, ts_pos, DATE. rewrite Hc.
  rewrite !andb_true_iff, !Z.leb_le. split.
  - intros [[H1 H2] _]. lia.
  - intros [H1 H2]. repeat split; lia.
Qed.

Lemma current_window_end_day_witness :
  current_where (mkdate 2024 3 1) (mkdate 2024 3 31)
    (mksale (mkts (mkdate 2024 3 30) 86399) 10 "COMPLETED") = true /\
  current_where (mkdate 2024 3 1) (mkdate 2024 3 31)
    (mksale (mkts (mkdate 2024 3 31) 1) 10 "COMPLETED") <> true.
Proof.
  split.
  - apply (current_window_end_day (mkdate 2024 3 1) (mkdate 2024 3 31)
             (mksale (mkts (mkdate 2024 3 30) 86399) 10 "COMPLETED")).
    + cbn. lia.
    + reflexivity.
    + vm_compute. split; [discriminate | left; reflexivity].
  - intros H.
    apply (current_window_end_day (mkdate 2024 3 1) (mkdate 2024 3 31)
             (mksale (mkts (mkdate 2024 3 31) 1) 10 "COMPLETED")) in H.
    + vm_compute in H. destruct H as [_ [H|[_ H]]]; discriminate.
    + cbn. lia.
    + reflexivity.
Defined.

(** X18.  The comparison window and the requested window leave no gap: a
    completed sale made from the start of the comparison window up to the
    midnight that starts [end_date] is selected by one of the two queries. *)
Theorem windows_leave_no_gap (start_date end_date prev_start prev_end : date)
    (s : sale) :
  previous_period start_date end_date = Ok (prev_start, prev_end) ->
  completed s = true ->
  midnight prev_start <= ts_pos (created_at s) <= midnight end_date ->
  previous_where prev_start prev_end s = true \/
  current_where start_date end_date s = true.
Proof.
  intros Hp Hc Hr. apply previous_period_inv in Hp as [-> _].
  unfold previous_where, current_where. rewrite Hc.
  destruct (Z.ltb_spec (ts_pos (created_at s)) (midnight start_date)) as [H|H].
  - left. rewrite !andb_true_iff, Z.leb_le. repeat split. lia.
  - right. rewrite !andb_true_iff, !Z.leb_le. repeat split; lia.
Qed.

Lemma windows_leave_no_gap_witness :
  previous_where (mkdate 2024 1 31) (mkdate 2024 3 1)
    (mksale (mkts (mkdate 2024 3 1) 0) 10 "COMPLETED") = true \/
  current_where (mkdate 2024 3 1) (mkdate 2024 3 31)
    (mksale (mkts (mkdate 2024 3 1) 0) 10 "COMPLETED") = true.
Proof.
  apply (windows_leave_no_gap (mkdate 2024 3 1) (mkdate 2024 3 31)
           (mkdate 2024 1 31) (mkdate 2024 3 1)).
  - reflexivity.
  - reflexivity.
  - vm_compute. split; discriminate.
Defined.
